(** * EPTB decision support tool: the regimen evaluation rules of [eptb_tool.py]

    A shallow embedding of the decision logic of the Streamlit script
    [src/eptb_tool.py] and the proofs of its specified properties.

    - Python [int] is [Z].
    - Python [float] is IEEE 754 binary64, the kernel's primitive [float];
      its operations round to nearest even as CPython's do.
    - A comparison of a [float] with an [int] is exact, as in CPython
      ([float_richcompare]): the float's rational value is compared with
      the integer, a NaN compares false and an infinity by its sign.
    - The session dictionary [st.session_state.patient_data] is a record
      with one optional field per key ([None]: the key is absent); every
      key is only ever written by one widget, which fixes its type.
    - The calls [st.error], [st.warning], ... are the script's output: a
      page is a computation that appends them to a log and may raise. *)

From Stdlib Require Import ZArith QArith Qabs Qpower Lqa Lia Bool List String.
From Stdlib Require Import Floats.
Import ListNotations.

#[local] Set Warnings "-inexact-float".

Local Open Scope string_scope.
Local Open Scope list_scope.
Local Open Scope Z_scope.

(* ================================================================== *)
(** ** Python numbers *)

Inductive exn : Type :=
| KeyError (key : string)
| ZeroDivisionError
| OverflowError.

Inductive result (A : Type) : Type :=
| Ok (a : A)
| Raise (e : exn).
Arguments Ok {A} a.
Arguments Raise {A} e.

Module Py.

(** The binary64 number nearest to an integer (ties to even). *)
Definition Z2float (n : Z) : float :=
  SF2Prim (binary_normalize prec emax n 0 false).

(** [float(n)], the conversion an [int] operand undergoes in mixed
    arithmetic; CPython raises [OverflowError] when the integer is too
    large for a double. *)
Definition float_of_int (n : Z) : result float :=
  match binary_normalize prec emax n 0 false with
  | S754_infinity _ => Raise OverflowError
  | sf => Ok (SF2Prim sf)
  end.

(** The rational value of a finite float. *)
Definition SF2Q (x : spec_float) : Q :=
  match x with
  | S754_finite s m e => (inject_Z (cond_Zopp s (Zpos m)) * 2 ^ e)%Q
  | _ => 0%Q
  end.

Definition SFcompare_int (x : spec_float) (n : Z) : option comparison :=
  match x with
  | S754_nan => None
  | S754_infinity s => Some (if s then Lt else Gt)
  | _ => Some (SF2Q x ?= inject_Z n)%Q
  end.

Definition compare_float_int (x : float) (n : Z) : option comparison :=
  SFcompare_int (Prim2SF x) n.

(** [x < n], [x > n] and [x >= n] for a float [x] and an int [n]. *)
Definition float_lt_int (x : float) (n : Z) : bool :=
  match compare_float_int x n with Some Lt => true | _ => false end.
Definition float_gt_int (x : float) (n : Z) : bool :=
  match compare_float_int x n with Some Gt => true | _ => false end.
Definition float_ge_int (x : float) (n : Z) : bool :=
  match compare_float_int x n with Some (Gt | Eq) => true | _ => false end.

(** [n < x] and [n > x] for an int [n] and a float [x]. *)
Definition int_lt_float (n : Z) (x : float) : bool := float_gt_int x n.
Definition int_gt_float (n : Z) (x : float) : bool := float_lt_int x n.

(** The zero test of float division ([ZeroDivisionError] on [+0.0] and
    [-0.0]). *)
Definition float_div (x y : float) : result float :=
  if PrimFloat.eqb y 0%float then Raise ZeroDivisionError
  else Ok (x / y)%float.

(** [x in l] for strings. *)
Definition str_in (x : string) (l : list string) : bool :=
  existsb (String.eqb x) l.

End Py.

(* ================================================================== *)
(** ** The script's output and its control flow *)

(** The value a replacement field of an f-string is filled with. *)
Inductive arg : Type :=
| AStr (s : string)
| AInt (n : Z)
| AFloat (x : float)
| ANone.

(** An f-string: literal text and replacement fields, in order. *)
Inductive fragment : Type :=
| Lit (s : string)
| Hole (a : arg).

Definition text : Type := list fragment.

Inductive st_call : Type :=
| st_title (t : text)
| st_subheader (t : text)
| st_error (t : text)
| st_warning (t : text)
| st_success (t : text)
| st_info (t : text)
| st_markdown (t : text)
| st_write (t : text).

(** A page: it appends to the log of calls made so far and returns a
    value or raises. *)
Definition st (A : Type) : Type := list st_call -> list st_call * result A.

Definition ret {A : Type} (a : A) : st A := fun log => (log, Ok a).

Definition raise {A : Type} (e : exn) : st A := fun log => (log, Raise e).

Definition bind {A B : Type} (m : st A) (k : A -> st B) : st B :=
  fun log =>
    match m log with
    | (log', Ok a) => k a log'
    | (log', Raise e) => (log', Raise e)
    end.

Definition emit (c : st_call) : st unit := fun log => (log ++ [c], Ok tt).

Definition run {A : Type} (m : st A) : list st_call * result A := m [].

Notation "x <- m ;; k" := (bind m (fun x => k))
  (at level 61, m at next level, right associativity).
Notation "m ;;; k" := (bind m (fun _ => k))
  (at level 61, right associativity).

(* ================================================================== *)
(** ** The session dictionary *)

Record patient_data : Type := mk_patient_data {
  name : option string;
  age : option Z;
  sex : option string;
  weight : option float;
  height : option Z;
  creatinine : option float;
  hiv_status : option string;
  liver_disease : option bool;
  egfr : option float;
  eptb_type : option string;
  severity : option string;
  req_duration : option Z;
  ip_drugs : option (list string);
  ip_duration : option Z;
  cp_drugs : option (list string);
  cp_duration : option Z;
  dose_H : option Z;
  dose_R : option Z;
  dose_Z : option Z;
  dose_E : option Z
}.

(** [st.session_state.patient_data = {}] *)
Definition empty_data : patient_data :=
  mk_patient_data None None None None None None None None None None
                  None None None None None None None None None None.

(** [data.get(key, default)] *)
Definition get {A : Type} (field : option A) (default : A) : A :=
  match field with
  | Some v => v
  | None => default
  end.

(** [data[key]] *)
Definition item {A : Type} (key : string) (field : option A) : st A :=
  match field with
  | Some v => ret v
  | None => raise (KeyError key)
  end.

(** [data.get(key)] inside a replacement field. *)
Definition show_int (field : option Z) : arg :=
  match field with
  | Some n => AInt n
  | None => ANone
  end.

Definition set_severity (v : option string) (d : patient_data) : patient_data :=
  mk_patient_data (name d) (age d) (sex d) (weight d) (height d)
    (creatinine d) (hiv_status d) (liver_disease d) (egfr d) (eptb_type d)
    v (req_duration d) (ip_drugs d) (ip_duration d) (cp_drugs d)
    (cp_duration d) (dose_H d) (dose_R d) (dose_Z d) (dose_E d).

Definition set_eptb_type (v : option string) (d : patient_data) : patient_data :=
  mk_patient_data (name d) (age d) (sex d) (weight d) (height d)
    (creatinine d) (hiv_status d) (liver_disease d) (egfr d) v
    (severity d) (req_duration d) (ip_drugs d) (ip_duration d) (cp_drugs d)
    (cp_duration d) (dose_H d) (dose_R d) (dose_Z d) (dose_E d).

Definition set_req_duration (v : option Z) (d : patient_data) : patient_data :=
  mk_patient_data (name d) (age d) (sex d) (weight d) (height d)
    (creatinine d) (hiv_status d) (liver_disease d) (egfr d) (eptb_type d)
    (severity d) v (ip_drugs d) (ip_duration d) (cp_drugs d)
    (cp_duration d) (dose_H d) (dose_R d) (dose_Z d) (dose_E d).

Definition set_dose_R (v : option Z) (d : patient_data) : patient_data :=
  mk_patient_data (name d) (age d) (sex d) (weight d) (height d)
    (creatinine d) (hiv_status d) (liver_disease d) (egfr d) (eptb_type d)
    (severity d) (req_duration d) (ip_drugs d) (ip_duration d) (cp_drugs d)
    (cp_duration d) (dose_H d) v (dose_Z d) (dose_E d).

(* ================================================================== *)
(** ** Helper functions *)

Definition renal_severe_msg : string :=
  "⚠️ Severe Renal Impairment: Pyrazinamide and Ethambutol require dose/frequency adjustment (usually 3x/week).".
Definition renal_moderate_msg : string :=
  "⚠️ Moderate Renal Impairment: Monitor closely.".
Definition renal_ok_msg : string :=
  "Renal function acceptable.".

(** [check_renal_adjustment(egfr)], lines 29-34. *)
Definition check_renal_adjustment (egfr : float) : bool * string :=
  if Py.float_lt_int egfr 30 then (true, renal_severe_msg)
  else if Py.float_lt_int egfr 60 then (true, renal_moderate_msg)
  else (false, renal_ok_msg).

(* ================================================================== *)
(** ** Page 1: patient information (the eGFR estimate, lines 94-98) *)

(** [sex_factor = 0.85 if ...['sex'] == "Female" else 1.0] *)
Definition sex_factor (sex : string) : float :=
  if String.eqb sex "Female" then 0.85%float else 1.0%float.

(** [egfr = ((140 - age) * wt * sex_factor) / (72 * creat)]: [age] is an
    int, [wt] and [creat] are floats, so both products are float
    products after the int operand is converted. *)
Definition egfr_of (age : Z) (wt : float) (sex : string) (creat : float)
  : result float :=
  match Py.float_of_int (140 - age) with
  | Raise e => Raise e
  | Ok a =>
      Py.float_div (a * wt * sex_factor sex)%float (72 * creat)%float
  end.

(* ================================================================== *)
(** ** Page 2: EPTB type and severity (lines 113-140) *)

Definition severe_types : list string := ["TB Meningitis"; "Bone/Joint TB"].

(** The page stores the two selections, then derives [req_duration] from
    the stored type. *)
Definition eptb_type_severity_page (sel_type sel_severity : string)
    (d : patient_data) : st patient_data :=
  emit (st_title [Lit "EPTB Classification"]) ;;;
  emit (st_info [Lit "Select the specific site of infection. WHO guidelines differ for CNS/Bone TB vs. other sites."]) ;;;
  let d := set_eptb_type (Some sel_type) d in
  let d := set_severity (Some sel_severity) d in
  ty <- item "eptb_type" (eptb_type d) ;;
  if Py.str_in ty severe_types then
    emit (st_warning [Lit "⚠️ WHO Guideline: This form of EPTB requires extended treatment (9-12 months)."]) ;;;
    ret (set_req_duration (Some 12) d)
  else
    emit (st_success [Lit "✅ WHO Guideline: Standard 6-month regimen (2HRZE / 4HR) is usually sufficient."]) ;;;
    ret (set_req_duration (Some 6) d).

(* ================================================================== *)
(** ** Page 3: prescribed regimen (the default of the Rifampicin dose
       widget, line 164) *)

(** [value=600 if ...get('weight', 60) > 50 else 450] *)
Definition dose_R_default (d : patient_data) : Z :=
  if Py.float_gt_int (get (weight d) 60%float) 50 then 600 else 450.

(* ================================================================== *)
(** ** Page 4: pharmacotherapy evaluation engine (lines 171-221) *)

(** [is_severe_type = data.get('eptb_type') in [...]] *)
Definition is_severe_type (data : patient_data) : bool :=
  match eptb_type data with
  | Some ty => Py.str_in ty severe_types
  | None => false
  end.

(** [total_duration = data.get('ip_duration', 0) + data.get('cp_duration', 0)] *)
Definition total_duration (data : patient_data) : Z :=
  get (ip_duration data) 0 + get (cp_duration data) 0.

(** [weight = data.get('weight', 60)]; the default, an int, behaves as
    the float 60.0 in every product and comparison below. *)
Definition weight_of (data : patient_data) : float :=
  get (weight data) 60%float.

(** 1. Duration check, lines 181-192; it returns [duration_status]. *)
Definition duration_check (data : patient_data) : st string :=
  emit (st_subheader [Lit "1. Duration Analysis"]) ;;;
  if is_severe_type data && (total_duration data <? 9) then
    ty <- item "eptb_type" (eptb_type data) ;;
    emit (st_error [Lit "❌ INCORRECT DURATION: Patient has "; Hole (AStr ty);
                    Lit ". WHO Guidelines mandate 9-12 months. Prescribed: ";
                    Hole (AInt (total_duration data)); Lit " months."]) ;;;
    emit (st_markdown [Lit "**Recommendation:** Extend Continuation Phase."]) ;;;
    ret "Fail"
  else if negb (is_severe_type data) && (total_duration data <? 6) then
    emit (st_error [Lit "❌ INCORRECT DURATION: Standard EPTB requires minimum 6 months. Prescribed: ";
                    Hole (AInt (total_duration data)); Lit "."]) ;;;
    ret "Fail"
  else
    ty <- item "eptb_type" (eptb_type data) ;;
    emit (st_success [Lit "✅ Duration ("; Hole (AInt (total_duration data));
                      Lit " months) is appropriate for "; Hole (AStr ty);
                      Lit "."]) ;;;
    ret "Pass".

(** Rifampicin check, lines 197-204. *)
Definition rifampicin_underdose (r_dose : Z) : st_call :=
  st_warning [Lit "⚠️ Rifampicin Potential Underdose. Weight > 50kg usually requires 600mg. Prescribed: ";
              Hole (AInt r_dose); Lit "mg."].
Definition rifampicin_overdose : st_call :=
  st_warning [Lit "⚠️ Rifampicin Potential Overdose. Weight < 50kg usually requires 450mg."].
Definition rifampicin_pass (r_dose : Z) (weight : float) : st_call :=
  st_success [Lit "✅ Rifampicin dose ("; Hole (AInt r_dose);
              Lit "mg) appears correct for weight "; Hole (AFloat weight);
              Lit "kg."].

Definition rifampicin_check (data : patient_data) : st unit :=
  let weight := weight_of data in
  let r_dose := get (dose_R data) 0 in
  if Py.float_gt_int weight 50 && (r_dose <? 600) then
    emit (rifampicin_underdose r_dose)
  else if Py.float_lt_int weight 50 && (r_dose >=? 600) then
    emit rifampicin_overdose
  else
    emit (rifampicin_pass r_dose weight).

(** Pyrazinamide check, lines 206-214. *)
Definition z_target_of (weight : float) : float := (weight * 25)%float.

Definition pyrazinamide_low (z_target : float) (z_dose : Z) : st_call :=
  st_warning [Lit "⚠️ Pyrazinamide Low. Target based on weight is approx ";
              Hole (AFloat z_target); Lit "mg. Prescribed: ";
              Hole (AInt z_dose); Lit "mg."].
Definition pyrazinamide_high : st_call :=
  st_warning [Lit "⚠️ Pyrazinamide High. Risk of Hepatotoxicity."].
Definition pyrazinamide_pass : st_call :=
  st_success [Lit "✅ Pyrazinamide dose acceptable."].

Definition pyrazinamide_check (data : patient_data) : st unit :=
  let weight := weight_of data in
  let z_dose := get (dose_Z data) 0 in
  let z_target := z_target_of weight in
  if Py.int_lt_float z_dose (z_target * 0.8)%float then
    emit (pyrazinamide_low z_target z_dose)
  else if Py.int_gt_float z_dose (z_target * 1.2)%float then
    emit pyrazinamide_high
  else
    emit pyrazinamide_pass.

(** 3. Regimen selection, lines 216-221. *)
Definition regimen_check (data : patient_data) : st unit :=
  emit (st_subheader [Lit "3. Regimen Appropriateness"]) ;;;
  (if match eptb_type data with
      | Some ty => String.eqb "TB Meningitis" ty
      | None => false
      end
      && negb (Py.str_in "Streptomycin (S)" (get (ip_drugs data) []))
   then
     emit (st_info [Lit "ℹ️ Note: WHO suggests considering Streptomycin in place of Ethambutol for Meningitis in certain cases, though Ethambutol is often used."])
   else ret tt) ;;;
  emit (st_success [Lit "Regimen Structure: "; Hole (show_int (ip_duration data));
                    Lit " months Intensive + "; Hole (show_int (cp_duration data));
                    Lit " months Continuation matches standard protocol structures."]).

Definition pharmacotherapy_eval_page (data : patient_data) : st unit :=
  emit (st_title [Lit "Pharmacotherapy Evaluation Engine"]) ;;;
  duration_status <- duration_check data ;;
  emit (st_subheader [Lit "2. Dosage Verification"]) ;;;
  rifampicin_check data ;;;
  pyrazinamide_check data ;;;
  regimen_check data.

(* ================================================================== *)
(** ** Page 5: side effects and interactions (lines 226-250) *)

Definition when (b : bool) (m : st unit) : st unit := if b then m else ret tt.

Definition hiv_interaction : st_call :=
  st_error [Lit "⚠️ **HIV INTERACTION:** Rifampicin significantly lowers levels of Protease Inhibitors and NNRTIs. Dosage adjustment or switch to Rifabutin may be required."].
Definition diabetes_note : st_call :=
  st_write [Lit "⚠️ **Diabetes:** Rifampicin may reduce efficacy of oral hypoglycemics (sulfonylureas). Monitor Glucose."].

Definition predicted_side_effects (data : patient_data) : st unit :=
  emit (st_subheader [Lit "Predicted Side Effects"]) ;;;
  let drugs := get (ip_drugs data) [] in
  when (Py.str_in "Rifampicin (R)" drugs)
    (emit (st_write [Lit "🔴 **Rifampicin:** Orange urine (harmless), Hepatotoxicity, Flu-like syndrome."])) ;;;
  when (Py.str_in "Isoniazid (H)" drugs)
    (emit (st_write [Lit "🔴 **Isoniazid:** Peripheral neuropathy (Prescribe Pyridoxine/Vit B6), Hepatotoxicity."])) ;;;
  when (Py.str_in "Pyrazinamide (Z)" drugs)
    (emit (st_write [Lit "🔴 **Pyrazinamide:** Hyperuricemia (Gout), Arthralgia, Hepatotoxicity."])) ;;;
  when (Py.str_in "Ethambutol (E)" drugs)
    (emit (st_write [Lit "🔴 **Ethambutol:** Optic Neuritis (Check visual acuity/color vision)."])).

Definition interaction_checker (data : patient_data) : st unit :=
  emit (st_subheader [Lit "Interaction Checker"]) ;;;
  when (match hiv_status data with
        | Some s => String.eqb s "Positive"
        | None => false
        end)
    (emit hiv_interaction) ;;;
  emit diabetes_note.

Definition side_effects_page (data : patient_data) : st unit :=
  emit (st_title [Lit "Safety Analysis"]) ;;;
  predicted_side_effects data ;;;
  interaction_checker data.

(** The verdict a call shows: [st.error] a failure, [st.warning] a warning,
    [st.success] a pass, [st.info] a note; the other calls show none. *)
Inductive verdict : Type := Fail | Warning | Pass | Info.

Definition verdict_of (c : st_call) : option verdict :=
  match c with
  | st_error _ => Some Fail
  | st_warning _ => Some Warning
  | st_success _ => Some Pass
  | st_info _ => Some Info
  | _ => None
  end.

Fixpoint verdicts (log : list st_call) : list verdict :=
  match log with
  | [] => []
  | c :: log' =>
      match verdict_of c with
      | Some v => v :: verdicts log'
      | None => verdicts log'
      end
  end.

(* ================================================================== *)
(** ** Sample records *)

(** A record holding an EPTB type and the two phase lengths. *)
Definition duration_example (ty : string) (ip cp : Z) : patient_data :=
  set_eptb_type (Some ty)
    (mk_patient_data None None None None None None None None None None
       None None None (Some ip) None (Some cp) None None None None).


(** A record holding a weight and a Rifampicin dose. *)
Definition rifampicin_example (w : float) (r_dose : Z) : patient_data :=
  mk_patient_data None None None (Some w) None None None None None None
    None None None None None None None (Some r_dose) None None.

(** The test of the interaction checker, line 246. *)
Definition hiv_positive (data : patient_data) : bool :=
  match hiv_status data with
  | Some s => String.eqb s "Positive"
  | None => false
  end.

(* ================================================================== *)
(** ** Values of binary64 numbers *)

(** The rational [m * 2^e]: the value of the finite float with mantissa
    [m] and exponent [e]. *)
Definition val (m e : Z) : Q := (inject_Z m * 2 ^ e)%Q.

(** A record holding a weight and a Pyrazinamide dose. *)
Definition pyrazinamide_example (w : float) (z_dose : Z) : patient_data :=
  mk_patient_data None None None (Some w) None None None None None None
    None None None None None None None None (Some z_dose) None.

(** A record of page 1, 2 and part of page 3: Pleural TB, weight 40 kg,
    phases of 2 and 4 months, 1000 mg of Pyrazinamide, and no
    Rifampicin dose. *)
Definition absent_dose_R_example : patient_data :=
  mk_patient_data None (Some 25) (Some "Male") (Some 40%float) (Some 170)
    (Some 0.9%float) (Some "Negative") (Some false) None (Some "Pleural TB")
    (Some "Moderate") (Some 6) None (Some 2) None (Some 4)
    (Some 300) None (Some 1000) (Some 1200).

(** A record of pages 1 and 3 only: page 2 was not visited, so it holds
    no EPTB type. *)
Definition absent_eptb_type_example : patient_data :=
  mk_patient_data None (Some 25) (Some "Male") (Some 60%float) (Some 170)
    (Some 0.9%float) (Some "Negative") (Some false) None None
    None None None (Some 2) None (Some 4)
    (Some 300) (Some 600) (Some 1500) (Some 1200).

(* ================================================================== *)
(** ** Page 2: the options of the type selector (lines 117-126) *)

Definition eptb_types : list string :=
  ["Pleural TB"; "Lymph Node TB"; "Abdominal TB"; "Genitourinary TB";
   "Pericardial TB"; "Bone/Joint TB"; "TB Meningitis"; "Disseminated TB"].

(** [l.index(x)]: the first position of [x]; [None] stands for the
    [ValueError] of an absent element. *)
Fixpoint list_index (x : string) (l : list string) : option nat :=
  match l with
  | [] => None
  | y :: l' =>
      if String.eqb y x then Some 0%nat
      else match list_index x l' with
           | Some i => Some (S i)
           | None => None
           end
  end.

(** [index=eptb_types.index(...get('eptb_type', 'Pleural TB'))], the
    option the selector shows when the page is drawn. *)
Definition eptb_type_index (d : patient_data) : option nat :=
  list_index (get (eptb_type d) "Pleural TB") eptb_types.

(* ================================================================== *)
(** ** Page 3: what the page stores (lines 152-166) *)

Definition ip_drug_options : list string :=
  ["Isoniazid (H)"; "Rifampicin (R)"; "Pyrazinamide (Z)"; "Ethambutol (E)"].

Definition cp_drug_options : list string :=
  ["Isoniazid (H)"; "Rifampicin (R)"; "Ethambutol (E)"].

(** The values the eight widgets of the page return. *)
Record regimen_widgets : Type := mk_regimen_widgets {
  w_ip_drugs : list string;
  w_ip_duration : Z;
  w_cp_drugs : list string;
  w_cp_duration : Z;
  w_dose_H : Z;
  w_dose_R : Z;
  w_dose_Z : Z;
  w_dose_E : Z
}.

(** What the widgets can return: a multiselect a list of its options, a
    bounded number input a number within its bounds ([1, 12] and
    [1, 24]); the dose inputs are unbounded. *)
Definition regimen_widgets_ok (w : regimen_widgets) : Prop :=
  incl (w_ip_drugs w) ip_drug_options /\
  1 <= w_ip_duration w <= 12 /\
  incl (w_cp_drugs w) cp_drug_options /\
  1 <= w_cp_duration w <= 24.

(** The values the widgets show first: their [default] and [value]
    arguments. *)
Definition regimen_defaults (d : patient_data) : regimen_widgets :=
  mk_regimen_widgets ip_drug_options 2
    ["Isoniazid (H)"; "Rifampicin (R)"] 4
    300 (dose_R_default d) 1500 1200.

(** The eight assignments of the page; its display calls are left out. *)
Definition prescribed_regimen_store (w : regimen_widgets) (d : patient_data)
  : patient_data :=
  mk_patient_data (name d) (age d) (sex d) (weight d) (height d)
    (creatinine d) (hiv_status d) (liver_disease d) (egfr d) (eptb_type d)
    (severity d) (req_duration d)
    (Some (w_ip_drugs w)) (Some (w_ip_duration w))
    (Some (w_cp_drugs w)) (Some (w_cp_duration w))
    (Some (w_dose_H w)) (Some (w_dose_R w))
    (Some (w_dose_Z w)) (Some (w_dose_E w)).

(* ================================================================== *)
(** ** Page 4 and page 5: the conditions and the table they use *)

(** The condition of the Streptomycin note, line 218. *)
Definition streptomycin_note_due (data : patient_data) : bool :=
  match eptb_type data with
  | Some ty => String.eqb "TB Meningitis" ty
  | None => false
  end
  && negb (Py.str_in "Streptomycin (S)" (get (ip_drugs data) [])).

(** The four drugs of the side-effect column with their lines, in the
    order of the four tests (lines 234-241). *)
Definition side_effect_table : list (string * st_call) :=
  [("Rifampicin (R)",
    st_write [Lit "🔴 **Rifampicin:** Orange urine (harmless), Hepatotoxicity, Flu-like syndrome."]);
   ("Isoniazid (H)",
    st_write [Lit "🔴 **Isoniazid:** Peripheral neuropathy (Prescribe Pyridoxine/Vit B6), Hepatotoxicity."]);
   ("Pyrazinamide (Z)",
    st_write [Lit "🔴 **Pyrazinamide:** Hyperuricemia (Gout), Arthralgia, Hepatotoxicity."]);
   ("Ethambutol (E)",
    st_write [Lit "🔴 **Ethambutol:** Optic Neuritis (Check visual acuity/color vision)."])].

Definition set_dose_Z (v : option Z) (d : patient_data) : patient_data :=
  mk_patient_data (name d) (age d) (sex d) (weight d) (height d)
    (creatinine d) (hiv_status d) (liver_disease d) (egfr d) (eptb_type d)
    (severity d) (req_duration d) (ip_drugs d) (ip_duration d) (cp_drugs d)
    (cp_duration d) (dose_H d) (dose_R d) v (dose_E d).

(** Two records that agree on the seven keys page 4 names. *)
Definition same_regimen_inputs (d1 d2 : patient_data) : Prop :=
  eptb_type d1 = eptb_type d2 /\
  ip_duration d1 = ip_duration d2 /\
  cp_duration d1 = cp_duration d2 /\
  weight d1 = weight d2 /\
  dose_R d1 = dose_R d2 /\
  dose_Z d1 = dose_Z d2 /\
  ip_drugs d1 = ip_drugs d2.

(** A record of page 1 alone, and one of pages 1 to 3 of another patient
    with the same regimen inputs as [absent_dose_R_example]. *)
Definition other_patient_example : patient_data :=
  mk_patient_data (Some "B") (Some 70) (Some "Female") (Some 40%float)
    (Some 150) (Some 3.5%float) (Some "Positive") (Some true)
    (Some 12.5%float) (Some "Pleural TB")
    (Some "Severe") (Some 12) None (Some 2) (Some ["Isoniazid (H)"]) (Some 4)
    (Some 0) None (Some 1000) (Some 0).

(* ================================================================== *)
(** ** Kinds of binary64 numbers *)

(** A number that is neither a NaN nor negative: a zero, a positive
    finite number or the positive infinity. *)
Definition SF_nonneg (x : spec_float) : bool :=
  match x with
  | S754_zero _ => true
  | S754_finite false _ _ => true
  | S754_infinity false => true
  | _ => false
  end.

(** A positive finite number. *)
Definition SF_pos_finite (x : spec_float) : bool :=
  match x with
  | S754_finite false _ _ => true
  | _ => false
  end.

(* ================================================================== *)
(** ** Exact comparisons of a float with an int *)

Lemma SFcompare_int_lt_mono (sf : spec_float) (m n : Z) :
  m <= n ->
  Py.SFcompare_int sf m = Some Lt -> Py.SFcompare_int sf n = Some Lt.
Proof.
  intros Hmn. rewrite Zle_Qle in Hmn.
  assert (Hq : forall q : Q,
             Some (q ?= inject_Z m)%Q = Some Lt ->
             Some (q ?= inject_Z n)%Q = Some Lt).
  { intros q H. injection H as H. rewrite <- Qlt_alt in H.
    f_equal. rewrite <- Qlt_alt. eapply Qlt_le_trans; eassumption. }
  destruct sf as [s | s | | s p e]; cbn [Py.SFcompare_int]; auto.
Qed.

Section Comparisons.

Variable x : float.

Lemma float_lt_int_mono (m n : Z) :
  m <= n -> Py.float_lt_int x m = true -> Py.float_lt_int x n = true.
Proof.
  unfold Py.float_lt_int, Py.compare_float_int. intros Hmn.
  destruct (Py.SFcompare_int (Prim2SF x) m) as [[ | | ] | ] eqn:Hm;
    try discriminate.
  rewrite (SFcompare_int_lt_mono _ _ _ Hmn Hm). reflexivity.
Qed.

Lemma float_ge_int_not_lt (n : Z) :
  Py.float_ge_int x n = true -> Py.float_lt_int x n = false.
Proof.
  unfold Py.float_ge_int, Py.float_lt_int.
  destruct (Py.compare_float_int x n) as [[ | | ] | ]; congruence.
Qed.

Lemma float_gt_int_not_lt (n : Z) :
  Py.float_gt_int x n = true -> Py.float_lt_int x n = false.
Proof.
  unfold Py.float_gt_int, Py.float_lt_int.
  destruct (Py.compare_float_int x n) as [[ | | ] | ]; congruence.
Qed.

Lemma float_eq_int_neither (n : Z) :
  Py.compare_float_int x n = Some Eq ->
  Py.float_lt_int x n = false /\ Py.float_gt_int x n = false.
Proof.
  unfold Py.float_gt_int, Py.float_lt_int. intros ->. split; reflexivity.
Qed.

End Comparisons.

(* ================================================================== *)
(** ** The renal classification *)

(** C3: for every eGFR value the classification is: adjustment needed with
    the severe-impairment message when egfr < 30; adjustment needed with
    the moderate-impairment message when 30 <= egfr < 60; no adjustment
    with the acceptable message when egfr >= 60.  So 29.9 is severe, 30.0
    is moderate and 60.0 is acceptable. *)
Theorem check_renal_adjustment_bands (egfr : float) :
  (Py.float_lt_int egfr 30 = true ->
   check_renal_adjustment egfr = (true, renal_severe_msg)) /\
  (Py.float_ge_int egfr 30 = true -> Py.float_lt_int egfr 60 = true ->
   check_renal_adjustment egfr = (true, renal_moderate_msg)) /\
  (Py.float_ge_int egfr 60 = true ->
   check_renal_adjustment egfr = (false, renal_ok_msg)) /\
  check_renal_adjustment 29.9%float = (true, renal_severe_msg) /\
  check_renal_adjustment 30.0%float = (true, renal_moderate_msg) /\
  check_renal_adjustment 60.0%float = (false, renal_ok_msg).
Proof.
  split; [ | split; [ | split; [ | repeat split; vm_compute; reflexivity]]];
    unfold check_renal_adjustment.
  - intros ->. reflexivity.
  - intros Hge Hlt. rewrite (float_ge_int_not_lt _ _ Hge), Hlt. reflexivity.
  - intros Hge.
    pose proof (float_ge_int_not_lt _ _ Hge) as H60. rewrite H60.
    destruct (Py.float_lt_int egfr 30) eqn:H30; [ | reflexivity].
    apply (float_lt_int_mono egfr 30 60) in H30; [congruence | lia].
Qed.

(* ================================================================== *)
(** ** The duration rule *)

Lemma str_in_severe_types (ty : string) :
  Py.str_in ty severe_types = true <->
  ty = "TB Meningitis" \/ ty = "Bone/Joint TB".
Proof.
  unfold Py.str_in, severe_types. cbn [existsb].
  rewrite !orb_true_iff, !String.eqb_eq. intuition discriminate.
Qed.

(** C1: with is_severe_type the membership of eptb_type in
    {TB Meningitis, Bone/Joint TB} and total the sum of the two phase
    lengths, the duration check shows exactly one verdict: Fail when
    is_severe_type and total < 9, Fail when not is_severe_type and
    total < 6, and Pass in every other case. *)
Theorem duration_rule (data : patient_data) (ty : string) :
  eptb_type data = Some ty ->
  exists log status,
    run (duration_check data) = (log, Ok status) /\
    ((((ty = "TB Meningitis" \/ ty = "Bone/Joint TB") /\
       get (ip_duration data) 0 + get (cp_duration data) 0 < 9) \/
      (~ (ty = "TB Meningitis" \/ ty = "Bone/Joint TB") /\
       get (ip_duration data) 0 + get (cp_duration data) 0 < 6)) ->
     verdicts log = [Fail] /\ status = "Fail") /\
    (~ (((ty = "TB Meningitis" \/ ty = "Bone/Joint TB") /\
         get (ip_duration data) 0 + get (cp_duration data) 0 < 9) \/
        (~ (ty = "TB Meningitis" \/ ty = "Bone/Joint TB") /\
         get (ip_duration data) 0 + get (cp_duration data) 0 < 6)) ->
     verdicts log = [Pass] /\ status = "Pass").
Proof.
  intros Hty.
  pose proof (str_in_severe_types ty) as Hsev.
  unfold run, duration_check, is_severe_type, total_duration.
  rewrite Hty.
  set (total := get (ip_duration data) 0 + get (cp_duration data) 0) in *.
  destruct (Py.str_in ty severe_types) eqn:Hin;
    destruct (Z.ltb_spec total 9) as [H9 | H9];
    destruct (Z.ltb_spec total 6) as [H6 | H6];
    cbn; do 2 eexists; (split; [reflexivity | ]); cbn;
    split; intros H; try (split; reflexivity); exfalso;
    try (apply H; clear H); intuition (try lia; try discriminate).
Qed.

Lemma duration_rule_witness :
  exists log status,
    run (duration_check (duration_example "Pleural TB" 2 3)) = (log, Ok status) /\
    ((("Pleural TB" = "TB Meningitis" \/ "Pleural TB" = "Bone/Joint TB") /\
      2 + 3 < 9 \/
      ~ ("Pleural TB" = "TB Meningitis" \/ "Pleural TB" = "Bone/Joint TB") /\
      2 + 3 < 6) ->
     verdicts log = [Fail] /\ status = "Fail") /\
    (~ (("Pleural TB" = "TB Meningitis" \/ "Pleural TB" = "Bone/Joint TB") /\
        2 + 3 < 9 \/
        ~ ("Pleural TB" = "TB Meningitis" \/ "Pleural TB" = "Bone/Joint TB") /\
        2 + 3 < 6) ->
     verdicts log = [Pass] /\ status = "Pass").
Proof.
  apply (duration_rule (duration_example "Pleural TB" 2 3) "Pleural TB").
  reflexivity.
Defined.

(** The four sample evaluations of the duration rule. *)
Example duration_meningitis_6 :
  snd (run (duration_check (duration_example "TB Meningitis" 2 4))) = Ok "Fail".
Proof. reflexivity. Qed.

Example duration_meningitis_12 :
  snd (run (duration_check (duration_example "TB Meningitis" 2 10))) = Ok "Pass".
Proof. reflexivity. Qed.

Example duration_pleural_6 :
  snd (run (duration_check (duration_example "Pleural TB" 2 4))) = Ok "Pass".
Proof. reflexivity. Qed.

Example duration_pleural_5 :
  snd (run (duration_check (duration_example "Pleural TB" 2 3))) = Ok "Fail".
Proof. reflexivity. Qed.

(* ================================================================== *)
(** ** The Rifampicin dosage rule *)

(** C4: for every weight and dose, the Rifampicin check shows the
    underdose warning exactly when weight > 50 and dose < 600, the
    overdose warning exactly when weight < 50 and dose >= 600, and the
    pass message otherwise; a weight equal to 50 passes for every dose. *)
Theorem rifampicin_rule (data : patient_data) :
  (run (rifampicin_check data)
   = ([rifampicin_underdose (get (dose_R data) 0)], Ok tt) <->
   Py.float_gt_int (weight_of data) 50 = true /\ get (dose_R data) 0 < 600) /\
  (run (rifampicin_check data) = ([rifampicin_overdose], Ok tt) <->
   Py.float_lt_int (weight_of data) 50 = true /\ 600 <= get (dose_R data) 0) /\
  (run (rifampicin_check data)
   = ([rifampicin_pass (get (dose_R data) 0) (weight_of data)], Ok tt) <->
   ~ (Py.float_gt_int (weight_of data) 50 = true /\ get (dose_R data) 0 < 600) /\
   ~ (Py.float_lt_int (weight_of data) 50 = true /\ 600 <= get (dose_R data) 0)) /\
  (Py.compare_float_int (weight_of data) 50 = Some Eq ->
   run (rifampicin_check data)
   = ([rifampicin_pass (get (dose_R data) 0) (weight_of data)], Ok tt)).
Proof.
  unfold run, rifampicin_check.
  set (w := weight_of data). set (r := get (dose_R data) 0).
  assert (Hex : Py.float_gt_int w 50 = true -> Py.float_lt_int w 50 = false)
    by apply float_gt_int_not_lt.
  assert (Heq : Py.compare_float_int w 50 = Some Eq ->
                Py.float_lt_int w 50 = false /\ Py.float_gt_int w 50 = false)
    by apply float_eq_int_neither.
  destruct (Py.float_gt_int w 50) eqn:Hgt;
    destruct (Py.float_lt_int w 50) eqn:Hlt;
    destruct (Z.ltb_spec r 600) as [Hr | Hr];
    destruct (Z.geb_spec r 600) as [Hr' | Hr'];
    try lia; try (specialize (Hex eq_refl); discriminate);
    cbn [andb emit app]; unfold rifampicin_underdose, rifampicin_overdose,
      rifampicin_pass;
    repeat split; intros; try discriminate; try lia; try reflexivity;
    try (intuition (try discriminate; try lia); fail);
    try (destruct Heq; [assumption | discriminate]).
Qed.

(** The four sample evaluations of the Rifampicin rule. *)
Example rifampicin_60_600 :
  run (rifampicin_check (rifampicin_example 60 600))
  = ([rifampicin_pass 600 60], Ok tt).
Proof. vm_compute. reflexivity. Qed.

Example rifampicin_60_450 :
  run (rifampicin_check (rifampicin_example 60 450))
  = ([rifampicin_underdose 450], Ok tt).
Proof. vm_compute. reflexivity. Qed.

Example rifampicin_40_600 :
  run (rifampicin_check (rifampicin_example 40 600))
  = ([rifampicin_overdose], Ok tt).
Proof. vm_compute. reflexivity. Qed.

Example rifampicin_50_450 :
  run (rifampicin_check (rifampicin_example 50 450))
  = ([rifampicin_pass 450 50], Ok tt).
Proof. vm_compute. reflexivity. Qed.

(** C10: the default Rifampicin dose the regimen page proposes for the
    stored weight (600 mg when weight > 50, otherwise 450 mg) passes the
    Rifampicin check: with that dose stored, the check shows the pass
    message, neither warning.  This holds for every stored weight, so for
    every weight of the declared range 1-200 kg. *)
Theorem default_dose_R_passes (data : patient_data) :
  run (rifampicin_check (set_dose_R (Some (dose_R_default data)) data))
  = ([rifampicin_pass (dose_R_default data) (weight_of data)], Ok tt).
Proof.
  unfold run, rifampicin_check, dose_R_default, weight_of.
  cbn [weight dose_R set_dose_R].
  set (w := get (weight data) 60%float). cbn [get].
  pose proof (float_gt_int_not_lt w 50) as Hex.
  destruct (Py.float_gt_int w 50) eqn:Hgt.
  - rewrite (Hex eq_refl). reflexivity.
  - destruct (Py.float_lt_int w 50); reflexivity.
Qed.

(* ================================================================== *)
(** ** Interactions *)

Lemma hiv_positive_iff (data : patient_data) :
  hiv_positive data = true <-> hiv_status data = Some "Positive".
Proof.
  unfold hiv_positive. destruct (hiv_status data) as [s | ].
  - rewrite String.eqb_eq. split; congruence.
  - split; discriminate.
Qed.

Lemma when_emit_log (b : bool) (c : st_call) (log : list st_call) :
  when b (emit c) log = (log ++ (if b then [c] else []), Ok tt).
Proof. destruct b; cbn; [ | rewrite app_nil_r]; reflexivity. Qed.

(** The side-effect column only writes text: none of its calls shows a
    verdict. *)
Lemma predicted_side_effects_log (data : patient_data) (log : list st_call) :
  exists l,
    predicted_side_effects data log = (log ++ l, Ok tt) /\
    Forall (fun c => verdict_of c = None) l.
Proof.
  unfold predicted_side_effects, bind.
  cbn [emit]. rewrite !when_emit_log, <- !app_assoc.
  eexists. split; [reflexivity | ].
  repeat (apply Forall_app; split);
    repeat match goal with
           | |- context [if ?b then _ else _] => destruct b
           end;
    repeat constructor.
Qed.

Lemma interaction_checker_log (data : patient_data) (log : list st_call) :
  interaction_checker data log
  = (log ++ [st_subheader [Lit "Interaction Checker"]]
         ++ (if hiv_positive data then [hiv_interaction] else [])
         ++ [diabetes_note], Ok tt).
Proof.
  unfold interaction_checker, bind. fold (hiv_positive data).
  cbn [emit]. rewrite when_emit_log. unfold emit.
  rewrite <- !app_assoc. reflexivity.
Qed.

Lemma In_hiv_interaction_checker (data : patient_data) :
  In hiv_interaction
     ([st_subheader [Lit "Interaction Checker"]]
        ++ (if hiv_positive data then [hiv_interaction] else [])
        ++ [diabetes_note]) <->
  hiv_status data = Some "Positive".
Proof.
  rewrite <- hiv_positive_iff.
  destruct (hiv_positive data); cbn; split; intros H; auto;
    try discriminate H; repeat destruct H as [H | H]; try discriminate H;
    contradiction.
Qed.

(** C9: the HIV interaction finding is shown if and only if the stored
    hiv_status is "Positive", and the diabetes/sulfonylurea note is shown
    on every run, whatever the record holds. *)
Theorem interaction_findings (data : patient_data) :
  (In hiv_interaction (fst (run (interaction_checker data))) <->
   hiv_status data = Some "Positive") /\
  In diabetes_note (fst (run (interaction_checker data))) /\
  (In hiv_interaction (fst (run (side_effects_page data))) <->
   hiv_status data = Some "Positive") /\
  In diabetes_note (fst (run (side_effects_page data))).
Proof.
  unfold run, side_effects_page, bind. cbn [emit].
  destruct (predicted_side_effects_log data ([] ++ [st_title [Lit "Safety Analysis"]]))
    as (l & -> & Hl).
  rewrite !interaction_checker_log. cbn [fst app].
  pose proof (In_hiv_interaction_checker data) as Hhiv. cbn [app] in Hhiv.
  assert (Hnot : ~ In hiv_interaction l).
  { intros Hin. rewrite Forall_forall in Hl. specialize (Hl _ Hin).
    discriminate Hl. }
  repeat split.
  - apply Hhiv.
  - intros H. apply Hhiv. exact H.
  - right. apply in_or_app. right. left. reflexivity.
  - intros [H | H]; [discriminate H | ].
    apply in_app_or in H. destruct H as [H | H]; [contradiction | ].
    apply Hhiv. exact H.
  - intros H. right. apply in_or_app. right. apply Hhiv. exact H.
  - right. apply in_or_app. right. right. apply in_or_app. right.
    left. reflexivity.
Qed.

(* ================================================================== *)
(** ** Severity *)

(** C8: the required duration is determined by the EPTB type alone (12
    for TB Meningitis and Bone/Joint TB, otherwise 6), and no evaluation
    reads the severity: two runs that differ only in the severity store
    the same required duration and show the same calls, verdicts and
    messages alike. *)
Theorem severity_noninterference
    (data : patient_data) (ty sev1 sev2 : string) (o1 o2 : option string) :
  (exists log d1 d2,
     run (eptb_type_severity_page ty sev1 data) = (log, Ok d1) /\
     run (eptb_type_severity_page ty sev2 data) = (log, Ok d2) /\
     req_duration d1 = req_duration d2 /\
     (ty = "TB Meningitis" \/ ty = "Bone/Joint TB" ->
      req_duration d1 = Some 12) /\
     (~ (ty = "TB Meningitis" \/ ty = "Bone/Joint TB") ->
      req_duration d1 = Some 6)) /\
  run (pharmacotherapy_eval_page (set_severity o1 data))
  = run (pharmacotherapy_eval_page (set_severity o2 data)) /\
  run (side_effects_page (set_severity o1 data))
  = run (side_effects_page (set_severity o2 data)) /\
  dose_R_default (set_severity o1 data) = dose_R_default (set_severity o2 data).
Proof.
  split; [ | repeat split; reflexivity].
  pose proof (str_in_severe_types ty) as Hsev.
  unfold run, eptb_type_severity_page.
  cbn [set_eptb_type set_severity eptb_type item bind emit ret app].
  destruct (Py.str_in ty severe_types);
    cbn; do 3 eexists; repeat split; intros H; try reflexivity;
    exfalso; intuition discriminate.
Qed.

(* ================================================================== *)
(** ** The eGFR estimate at the sample patient *)

(** C2, as stated, fails: for age 25, weight 60 kg, Male and creatinine
    0.9 mg/dL the estimate is 106.48148148148148, which is not within 0.1
    of 177.8. *)
Lemma egfr_sample_not_177_8 :
  exists x : float,
    egfr_of 25 60 "Male" 0.9 = Ok x /\
    ~ (Qabs (Py.SF2Q (Prim2SF x) - (1778 # 10)) <= 1 # 10)%Q.
Proof.
  exists 106.48148148148148%float. split.
  - vm_compute. reflexivity.
  - intros H. apply Qle_bool_iff in H. vm_compute in H. discriminate.
Qed.

(** C2, amended: for age 25, weight 60 kg, Male and creatinine
    0.9 mg/dL the estimate is a value within 0.1 of 106.5, and the renal
    classification of that value needs no adjustment. *)
Theorem egfr_sample :
  exists x : float,
    egfr_of 25 60 "Male" 0.9 = Ok x /\
    (Qabs (Py.SF2Q (Prim2SF x) - (1065 # 10)) <= 1 # 10)%Q /\
    fst (check_renal_adjustment x) = false.
Proof.
  exists 106.48148148148148%float. split; [ | split].
  - vm_compute. reflexivity.
  - apply Qle_bool_iff. vm_compute. reflexivity.
  - vm_compute. reflexivity.
Qed.

(* ================================================================== *)
(** ** Mantissa-exponent values *)

Lemma pow2_pos (e : Z) : (0 < 2 ^ e)%Q.
Proof. apply Qpower_0_lt. reflexivity. Qed.

Lemma pow2_add (a b : Z) : (2 ^ (a + b) == 2 ^ a * 2 ^ b)%Q.
Proof. apply Qpower_plus. discriminate. Qed.

Lemma pow2_inject (k : Z) : 0 <= k -> (inject_Z (2 ^ k) == 2 ^ k)%Q.
Proof. intros Hk. apply (Zpower_Qpower 2 k Hk). Qed.

Lemma val_shift (m e k : Z) :
  0 <= k -> (val (m * 2 ^ k) e == val m (e + k))%Q.
Proof.
  intros Hk. unfold val.
  rewrite inject_Z_mult, (pow2_inject k Hk), (Z.add_comm e k), pow2_add.
  ring.
Qed.

Lemma val_le (m m' e : Z) : m <= m' <-> (val m e <= val m' e)%Q.
Proof.
  unfold val. rewrite Qmult_le_r by apply pow2_pos.
  rewrite Zle_Qle. reflexivity.
Qed.

Lemma val_lt (m m' e : Z) : m < m' <-> (val m e < val m' e)%Q.
Proof.
  unfold val. rewrite Qmult_lt_r by apply pow2_pos.
  rewrite Zlt_Qlt. reflexivity.
Qed.

Lemma val_pos (m e : Z) : 0 < m -> (0 < val m e)%Q.
Proof.
  intros Hm. unfold val. apply Qmult_lt_0_compat; [ | apply pow2_pos].
  rewrite Zlt_Qlt in Hm. exact Hm.
Qed.

Lemma val_exp_le (m e e' : Z) :
  0 <= m -> e <= e' -> (val m e <= val m e')%Q.
Proof.
  intros Hm He.
  replace e' with (e + (e' - e)) by ring.
  rewrite <- val_shift by lia.
  apply val_le.
  assert (0 < 2 ^ (e' - e)) by (apply Z.pow_pos_nonneg; lia).
  nia.
Qed.

Lemma val_mul (a b e1 e2 : Z) :
  (val (a * b) (e1 + e2) == val a e1 * val b e2)%Q.
Proof. unfold val. rewrite inject_Z_mult, pow2_add. ring. Qed.

(* ================================================================== *)
(** ** Rounding to binary64: the shift of [binary_round_aux] *)

Lemma digits2_pos_bounds (p : positive) :
  2 ^ (Zpos (digits2_pos p) - 1) <= Zpos p < 2 ^ Zpos (digits2_pos p).
Proof.
  induction p as [p IH | p IH | ]; cbn [digits2_pos];
    [ | | cbn; lia];
    rewrite Pos2Z.inj_succ, Z.pow_succ_r by lia;
    replace (Z.succ (Zpos (digits2_pos p)) - 1) with (Zpos (digits2_pos p))
      by lia;
    replace (2 ^ Zpos (digits2_pos p))
      with (2 * 2 ^ (Zpos (digits2_pos p) - 1)) in *
      by (rewrite <- Z.pow_succ_r by lia; f_equal; lia);
    lia.
Qed.

Lemma Zdigits2_bounds (n : Z) :
  0 < n -> 0 < Zdigits2 n /\ 2 ^ (Zdigits2 n - 1) <= n < 2 ^ Zdigits2 n.
Proof.
  destruct n as [ | p | p]; try lia. intros _. cbn [Zdigits2].
  split; [lia | apply digits2_pos_bounds].
Qed.

Lemma Zdigits2_nonneg (n : Z) : 0 <= Zdigits2 n.
Proof. destruct n; cbn; lia. Qed.

Lemma Zdigits2_le (n D : Z) : 0 <= n -> 0 <= D -> n < 2 ^ D -> Zdigits2 n <= D.
Proof.
  intros Hn HD Hlt.
  assert (Hc : n = 0 \/ 0 < n) by lia. destruct Hc as [-> | Hpos]; [exact HD | ].
  destruct (Zdigits2_bounds n Hpos) as [Hd [Hlo _]].
  destruct (Z.le_gt_cases (Zdigits2 n) D) as [H | H]; [exact H | exfalso].
  assert (2 ^ D <= 2 ^ (Zdigits2 n - 1)) by (apply Z.pow_le_mono_r; lia).
  lia.
Qed.

Lemma Zdigits2_gt (n D : Z) : 0 <= D -> 2 ^ D <= n -> D < Zdigits2 n.
Proof.
  intros HD Hle.
  assert (Hpos : 0 < n) by (pose proof (Z.pow_pos_nonneg 2 D); lia).
  destruct (Zdigits2_bounds n Hpos) as [Hd [_ Hhi]].
  apply (Z.pow_lt_mono_r_iff 2); lia.
Qed.

Lemma shr_1_m (r : shr_record) :
  0 <= shr_m r -> shr_m (shr_1 r) = shr_m r / 2.
Proof.
  rewrite <- Z.div2_div.
  destruct r as [m rb sb]. destruct m as [ | [p | p | ] | p];
    cbn [shr_m]; try lia; reflexivity.
Qed.

Lemma iter_pos_shr_m (p : positive) (r : shr_record) :
  0 <= shr_m r -> shr_m (iter_pos shr_1 p r) = shr_m r / 2 ^ Zpos p.
Proof.
  revert r. induction p as [p IH | p IH | ]; intros r Hr; cbn [iter_pos].
  - assert (H1 : 0 <= shr_m (shr_1 r))
      by (rewrite shr_1_m by exact Hr; apply Z.div_pos; lia).
    assert (H2 : 0 <= shr_m (iter_pos shr_1 p (shr_1 r)))
      by (rewrite IH by exact H1; apply Z.div_pos;
          [exact H1 | apply Z.pow_pos_nonneg; lia]).
    rewrite (IH _ H2), (IH _ H1), (shr_1_m _ Hr).
    rewrite !Z.div_div by (try apply Z.pow_pos_nonneg; lia).
    f_equal.
    replace (Zpos p~1) with (1 + Zpos p + Zpos p) by lia.
    rewrite !Z.pow_add_r by lia. ring.
  - assert (H1 : 0 <= shr_m (iter_pos shr_1 p r))
      by (rewrite IH by exact Hr; apply Z.div_pos;
          [exact Hr | apply Z.pow_pos_nonneg; lia]).
    rewrite (IH _ H1), (IH _ Hr).
    rewrite !Z.div_div by (try apply Z.pow_pos_nonneg; lia).
    f_equal.
    replace (Zpos p~0) with (Zpos p + Zpos p) by lia.
    rewrite !Z.pow_add_r by lia. ring.
  - rewrite (shr_1_m _ Hr). reflexivity.
Qed.

Lemma shr_fexp_spec (n E : Z) (l : location) :
  0 <= n ->
  shr_m (fst (shr_fexp prec emax n E l))
  = n / 2 ^ Z.max 0 (fexp prec emax (Zdigits2 n + E) - E) /\
  snd (shr_fexp prec emax n E l)
  = E + Z.max 0 (fexp prec emax (Zdigits2 n + E) - E).
Proof.
  intros Hn. unfold shr_fexp, shr.
  assert (Hm : shr_m (shr_record_of_loc n l) = n)
    by (destruct l as [ | [ | | ]]; reflexivity).
  destruct (fexp prec emax (Zdigits2 n + E) - E) as [ | k | k];
    cbn [fst snd].
  - change (Z.max 0 0) with 0.
    rewrite Hm, Z.pow_0_r, Z.div_1_r. split; [reflexivity | ring].
  - rewrite iter_pos_shr_m, Hm, Z.max_r by (rewrite ?Hm; lia). split; reflexivity.
  - rewrite Hm, Z.max_l, Z.pow_0_r, Z.div_1_r by lia.
    split; [reflexivity | ring].
Qed.

Lemma round_nearest_even_bounds (m : Z) (l : location) :
  m <= round_nearest_even m l <= m + 1.
Proof.
  destruct l as [ | [ | | ]]; cbn [round_nearest_even];
    try destruct (Z.even m); lia.
Qed.

(** The result of rounding the positive number [n * 2^E]: a first shift
    by [k1] digits, a rounding step that keeps the mantissa or adds one,
    and a second shift by [k2] digits. *)
Lemma binary_round_aux_spec (sx : bool) (n E : Z) :
  0 < n ->
  exists m1,
    n / 2 ^ Z.max 0 (fexp prec emax (Zdigits2 n + E) - E) <= m1
    <= n / 2 ^ Z.max 0 (fexp prec emax (Zdigits2 n + E) - E) + 1 /\
    binary_round_aux prec emax sx n E loc_Exact
    = match m1 / 2 ^ Z.max 0 (fexp prec emax
                                 (Zdigits2 m1
                                  + (E + Z.max 0 (fexp prec emax (Zdigits2 n + E) - E)))
                               - (E + Z.max 0 (fexp prec emax (Zdigits2 n + E) - E)))
      with
      | Z0 => S754_zero sx
      | Zpos m =>
          if (E + Z.max 0 (fexp prec emax (Zdigits2 n + E) - E))
             + Z.max 0 (fexp prec emax
                          (Zdigits2 m1
                           + (E + Z.max 0 (fexp prec emax (Zdigits2 n + E) - E)))
                        - (E + Z.max 0 (fexp prec emax (Zdigits2 n + E) - E)))
             <=? emax - prec
          then S754_finite sx m
                 ((E + Z.max 0 (fexp prec emax (Zdigits2 n + E) - E))
                  + Z.max 0 (fexp prec emax
                               (Zdigits2 m1
                                + (E + Z.max 0 (fexp prec emax (Zdigits2 n + E) - E)))
                             - (E + Z.max 0 (fexp prec emax (Zdigits2 n + E) - E))))
          else S754_infinity sx
      | Zneg _ => S754_nan
      end.
Proof.
  intros Hn. unfold binary_round_aux.
  destruct (shr_fexp_spec n E loc_Exact) as [Hm1 He1]; [lia | ].
  destruct (shr_fexp prec emax n E loc_Exact) as [mrs e1].
  cbn [fst snd] in Hm1, He1. subst e1.
  set (k1 := Z.max 0 (fexp prec emax (Zdigits2 n + E) - E)) in *.
  set (m1 := round_nearest_even (shr_m mrs) (loc_of_shr_record mrs)).
  exists m1. split.
  - rewrite <- Hm1. apply round_nearest_even_bounds.
  - assert (Hm1' : 0 <= m1).
    { pose proof (round_nearest_even_bounds (shr_m mrs) (loc_of_shr_record mrs)).
      assert (0 <= n / 2 ^ k1)
        by (apply Z.div_pos; [lia | apply Z.pow_pos_nonneg; lia]).
      fold m1 in H. lia. }
    destruct (shr_fexp_spec m1 (E + k1) loc_Exact Hm1') as [Hm2 He2].
    destruct (shr_fexp prec emax m1 (E + k1) loc_Exact) as [mrs2 e2].
    cbn [fst snd] in Hm2, He2. subst e2. rewrite Hm2. reflexivity.
Qed.

(* ================================================================== *)
(** ** Rounding against a representable number *)

Lemma fexp_eq (x : Z) : fexp prec emax x = Z.max (x - 53) (-1074).
Proof. reflexivity. Qed.

Lemma bounded_inv (m : positive) (e : Z) :
  bounded prec emax m e = true ->
  Z.max (Zdigits2 (Zpos m) + e - 53) (-1074) = e /\ e <= 971.
Proof.
  unfold bounded, canonical_mantissa. rewrite andb_true_iff, fexp_eq.
  intros [Hc He]. apply Z.eqb_eq in Hc. apply Z.leb_le in He.
  cbn [Zdigits2]. split; [exact Hc | exact He].
Qed.

Lemma val_pow2 (k e : Z) : 0 <= k -> (val (2 ^ k) e == val 1 (e + k))%Q.
Proof.
  intros Hk. rewrite <- (val_shift 1 e k Hk), Z.mul_1_l. reflexivity.
Qed.

Lemma val_exp_lt_inv (m e e' : Z) :
  0 < m -> (val m e < val m e')%Q -> e < e'.
Proof.
  intros Hm Hlt. destruct (Z.lt_ge_cases e e') as [H | H]; [exact H | ].
  exfalso. apply (Qlt_not_le _ _ Hlt). apply val_exp_le; lia.
Qed.

(** A valid mantissa has at most 53 digits. *)
Lemma bounded_mantissa_lt (m : positive) (e : Z) :
  bounded prec emax m e = true -> Zpos m < 2 ^ 53.
Proof.
  intros Hb. destruct (bounded_inv m e Hb) as [Hc _].
  destruct (Zdigits2_bounds (Zpos m)) as [Hd [_ Hhi]]; [lia | ].
  assert (2 ^ Zdigits2 (Zpos m) <= 2 ^ 53) by (apply Z.pow_le_mono_r; lia).
  lia.
Qed.

(** A valid mantissa above the least exponent has exactly 53 digits. *)
Lemma bounded_mantissa_ge (m : positive) (e : Z) :
  bounded prec emax m e = true -> -1074 < e -> 2 ^ 52 <= Zpos m.
Proof.
  intros Hb He. destruct (bounded_inv m e Hb) as [Hc _].
  destruct (Zdigits2_bounds (Zpos m)) as [Hd [Hlo _]]; [lia | ].
  replace (Zdigits2 (Zpos m)) with 53 in Hlo by lia. exact Hlo.
Qed.

(** The second shift of the rounding: it only undoes the carry of a
    mantissa rounded up to [2^53]. *)
Lemma second_shift (m1 e1 : Z) :
  -1074 <= e1 -> 0 <= m1 <= 2 ^ 53 ->
  (m1 < 2 ^ 53 /\
   Z.max 0 (fexp prec emax (Zdigits2 m1 + e1) - e1) = 0) \/
  (m1 = 2 ^ 53 /\
   Z.max 0 (fexp prec emax (Zdigits2 m1 + e1) - e1) = 1).
Proof.
  intros He Hm. rewrite fexp_eq.
  assert (Hc : m1 < 2 ^ 53 \/ m1 = 2 ^ 53) by lia.
  destruct Hc as [Hlt | ->].
  - left. split; [exact Hlt | ].
    pose proof (Zdigits2_le m1 53 (proj1 Hm) ltac:(lia) Hlt). lia.
  - right. split; [reflexivity | ].
    change (Zdigits2 (2 ^ 53)) with 54. lia.
Qed.

Section Squeeze.

Variables (n E : Z) (mf : positive) (ef : Z).
Hypothesis Hn : 2 ^ 52 <= n.
Hypothesis Hb : bounded prec emax mf ef = true.

Let k1 : Z := Z.max 0 (fexp prec emax (Zdigits2 n + E) - E).

Lemma first_shift_exponent :
  E + k1 = Z.max (Zdigits2 n + E - 53) (-1074) /\ Zdigits2 n - 53 <= k1.
Proof.
  unfold k1. rewrite fexp_eq.
  pose proof (Zdigits2_gt n 52 ltac:(lia) Hn). lia.
Qed.

Lemma first_shift_lt : n / 2 ^ k1 < 2 ^ 53.
Proof.
  destruct first_shift_exponent as [_ Hk].
  assert (Hk0 : 0 <= k1) by (unfold k1; lia).
  destruct (Zdigits2_bounds n) as [Hd [_ Hhi]]; [lia | ].
  apply Z.div_lt_upper_bound; [apply Z.pow_pos_nonneg; lia | ].
  rewrite <- Z.pow_add_r by lia.
  assert (2 ^ Zdigits2 n <= 2 ^ (k1 + 53)) by (apply Z.pow_le_mono_r; lia).
  lia.
Qed.

(** Rounding a number that is at least the representable [mf * 2^ef]
    gives at least [mf * 2^ef]. *)
Lemma round_ge :
  (val (Zpos mf) ef <= val n E)%Q ->
  match binary_round_aux prec emax false n E loc_Exact with
  | S754_finite false m e => (val (Zpos mf) ef <= val (Zpos m) e)%Q
  | S754_infinity false => True
  | _ => False
  end.
Proof.
  intros Hle.
  destruct (binary_round_aux_spec false n E) as (m1 & Hm1 & ->); [lia | ].
  fold k1 in Hm1 |- *.
  destruct first_shift_exponent as [He1 Hk].
  pose proof first_shift_lt as Hlt.
  assert (Hk0 : 0 <= k1) by (unfold k1; lia).
  destruct (bounded_inv mf ef Hb) as [Hc Hef].
  pose proof (bounded_mantissa_lt mf ef Hb) as Hmf.
  assert (HA : (val (Zpos mf) ef <= val (n / 2 ^ k1) (E + k1))%Q).
  { destruct (Z.le_gt_cases (E + k1) ef) as [Hcase | Hcase].
    - assert (HT : (val (Zpos mf * 2 ^ (ef - (E + k1))) (E + k1)
                    == val (Zpos mf) ef)%Q).
      { rewrite val_shift by lia.
        replace (E + k1 + (ef - (E + k1))) with ef by ring. reflexivity. }
      rewrite <- HT. apply val_le.
      apply Z.div_le_lower_bound; [apply Z.pow_pos_nonneg; lia | ].
      apply (val_le _ _ E). rewrite Z.mul_comm, val_shift by lia.
      rewrite HT. exact Hle.
    - assert (H52 : 2 ^ 52 <= n / 2 ^ k1).
      { apply Z.div_le_lower_bound; [apply Z.pow_pos_nonneg; lia | ].
        destruct (Zdigits2_bounds n) as [Hd [Hlo _]]; [lia | ].
        replace (Zdigits2 n - 1) with (k1 + 52) in Hlo by lia.
        rewrite Z.pow_add_r in Hlo by lia. exact Hlo. }
      apply Qle_trans with (val (2 ^ 53) ef).
      { apply val_le. lia. }
      apply Qle_trans with (val (2 ^ 52) (E + k1)).
      { change (2 ^ 53) with (2 ^ 52 * 2 ^ 1). rewrite val_shift by lia.
        apply val_exp_le; lia. }
      apply val_le. exact H52. }
  assert (Hpos : 0 < n / 2 ^ k1).
  { apply (val_lt _ _ (E + k1)).
    eapply Qlt_le_trans; [ | exact HA].
    unfold val at 1. rewrite Qmult_0_l. apply val_pos. lia. }
  destruct (second_shift m1 (E + k1)) as [[Hm Hk2] | [Hm Hk2]];
    try lia; rewrite Hk2.
  - rewrite Z.pow_0_r, Z.div_1_r, Z.add_0_r.
    destruct m1 as [ | p | p]; try lia.
    destruct (E + k1 <=? emax - prec); [ | exact I].
    eapply Qle_trans; [exact HA | ]. apply val_le. lia.
  - subst m1. change (2 ^ 53 / 2 ^ 1) with (Zpos (2 ^ 52)).
    destruct (E + k1 + 1 <=? emax - prec); [ | exact I].
    eapply Qle_trans; [exact HA | ].
    change (Zpos (2 ^ 52)) with (2 ^ 52).
    rewrite <- (val_shift (2 ^ 52) (E + k1) 1) by lia. apply val_le.
    change (2 ^ 52 * 2 ^ 1) with (2 ^ 53). lia.
Qed.

(** Rounding a number below the representable [mf * 2^ef] gives at most
    [mf * 2^ef], and does not overflow. *)
Lemma round_lt :
  (val n E < val (Zpos mf) ef)%Q ->
  match binary_round_aux prec emax false n E loc_Exact with
  | S754_zero false => True
  | S754_finite false m e => (val (Zpos m) e <= val (Zpos mf) ef)%Q
  | _ => False
  end.
Proof.
  intros Hlt0.
  destruct (binary_round_aux_spec false n E) as (m1 & Hm1 & ->); [lia | ].
  fold k1 in Hm1 |- *.
  destruct first_shift_exponent as [He1 Hk].
  pose proof first_shift_lt as Hlt.
  assert (Hk0 : 0 <= k1) by (unfold k1; lia).
  destruct (bounded_inv mf ef Hb) as [Hc Hef].
  assert (Hpos0 : 0 <= n / 2 ^ k1)
    by (apply Z.div_pos; [lia | apply Z.pow_pos_nonneg; lia]).
  destruct (Zdigits2_bounds n) as [Hd [Hlo _]]; [lia | ].
  destruct (Zdigits2_bounds (Zpos mf)) as [Hdf [_ Hfhi]]; [lia | ].
  assert (Hexp : Zdigits2 n + E <= Zdigits2 (Zpos mf) + ef).
  { assert (H1 : (val 1 (E + (Zdigits2 n - 1))
                  < val 1 (ef + Zdigits2 (Zpos mf)))%Q).
    { rewrite <- !val_pow2 by lia.
      apply Qle_lt_trans with (val n E); [apply val_le; exact Hlo | ].
      apply Qlt_trans with (val (Zpos mf) ef); [exact Hlt0 | ].
      apply val_lt. exact Hfhi. }
    apply val_exp_lt_inv in H1; lia. }
  assert (Hcase : E + k1 <= ef) by lia.
  assert (HT : (val (Zpos mf * 2 ^ (ef - (E + k1))) (E + k1)
                == val (Zpos mf) ef)%Q).
  { rewrite val_shift by lia.
    replace (E + k1 + (ef - (E + k1))) with ef by ring. reflexivity. }
  assert (HA : m1 <= Zpos mf * 2 ^ (ef - (E + k1))).
  { assert (n / 2 ^ k1 < Zpos mf * 2 ^ (ef - (E + k1))); [ | lia].
    apply Z.div_lt_upper_bound; [apply Z.pow_pos_nonneg; lia | ].
    apply (val_lt _ _ E). rewrite Z.mul_comm, val_shift by lia.
    rewrite HT. exact Hlt0. }
  assert (HB : (val m1 (E + k1) <= val (Zpos mf) ef)%Q).
  { rewrite <- HT. apply val_le. exact HA. }
  destruct (second_shift m1 (E + k1)) as [[Hm Hk2] | [Hm Hk2]];
    try lia; rewrite Hk2.
  - rewrite Z.pow_0_r, Z.div_1_r, Z.add_0_r.
    destruct m1 as [ | p | p]; [exact I | | lia].
    replace (E + k1 <=? emax - prec) with true
      by (symmetry; apply Z.leb_le; change (emax - prec) with 971; lia).
    exact HB.
  - subst m1. change (2 ^ 53 / 2 ^ 1) with (Zpos (2 ^ 52)).
    assert (Hlt1 : E + k1 < ef).
    { apply (val_exp_lt_inv (2 ^ 53)); [lia | ].
      eapply Qle_lt_trans; [exact HB | ].
      apply val_lt. apply (bounded_mantissa_lt mf ef Hb). }
    replace (E + k1 + 1 <=? emax - prec) with true
      by (symmetry; apply Z.leb_le; change (emax - prec) with 971; lia).
    change (Zpos (2 ^ 52)) with (2 ^ 52).
    rewrite <- (val_shift (2 ^ 52) (E + k1) 1) by lia.
    change (2 ^ 52 * 2 ^ 1) with (2 ^ 53). exact HB.
Qed.

End Squeeze.

(* ================================================================== *)
(** ** Binary64 products and comparisons *)

(** On valid positive numbers the order of [SFleb] is the order of the
    values. *)
Lemma SFleb_val (m1 : positive) (e1 : Z) (m2 : positive) (e2 : Z) :
  bounded prec emax m1 e1 = true ->
  bounded prec emax m2 e2 = true ->
  SFleb (S754_finite false m1 e1) (S754_finite false m2 e2) = true ->
  (val (Zpos m1) e1 <= val (Zpos m2) e2)%Q.
Proof.
  intros Hb1 Hb2. unfold SFleb, SFcompare.
  destruct (Z.compare_spec e1 e2) as [-> | Hlt | Hgt].
  - rewrite Pos.compare_cont_spec. cbn [Pos.switch_Eq].
    destruct (Pos.compare_spec m1 m2) as [-> | H | H]; try discriminate;
      intros _; apply val_le; lia.
  - intros _.
    pose proof (bounded_mantissa_lt m1 e1 Hb1) as H1.
    destruct (bounded_inv m1 e1 Hb1) as [Hc1 _].
    pose proof (bounded_mantissa_ge m2 e2 Hb2 ltac:(lia)) as H2.
    apply Qle_trans with (val (2 ^ 53) e1); [apply val_le; lia | ].
    apply Qle_trans with (val (2 ^ 52) e2); [ | apply val_le; exact H2].
    change (2 ^ 53) with (2 ^ 52 * 2 ^ 1). rewrite val_shift by lia.
    apply val_exp_le; lia.
  - discriminate.
Qed.

(** What [c <= x] says of [x] for a positive finite [c]. *)
Lemma leb_lower_bound (c x : float) (mc : positive) (ec : Z) :
  Prim2SF c = S754_finite false mc ec ->
  (c <=? x)%float = true ->
  Prim2SF x = S754_infinity false \/
  exists m e,
    Prim2SF x = S754_finite false m e /\
    bounded prec emax m e = true /\
    (val (Zpos mc) ec <= val (Zpos m) e)%Q.
Proof.
  intros Hc Hle. rewrite leb_spec, Hc in Hle.
  pose proof (Prim2SF_valid c) as Hvc. rewrite Hc in Hvc.
  pose proof (Prim2SF_valid x) as Hvx.
  destruct (Prim2SF x) as [s | s | | s m e]; try discriminate Hle.
  - destruct s; [discriminate Hle | left; reflexivity].
  - destruct s; [discriminate Hle | ].
    right. exists m, e. split; [reflexivity | ]. split; [exact Hvx | ].
    apply SFleb_val; assumption.
Qed.

(** What [x <= c] says of [x]: it is not the positive infinity. *)
Lemma leb_upper_bound (c x : float) (mc : positive) (ec : Z) :
  Prim2SF c = S754_finite false mc ec ->
  (x <=? c)%float = true ->
  Prim2SF x <> S754_infinity false.
Proof.
  intros Hc Hle. rewrite leb_spec, Hc in Hle.
  intros Hx. rewrite Hx in Hle. discriminate Hle.
Qed.

Section Products.

Variables (x y : float) (mx : positive) (ex : Z) (my : positive) (ey : Z).
Hypothesis Hx : Prim2SF x = S754_finite false mx ex.
Hypothesis Hy : Prim2SF y = S754_finite false my ey.
Hypothesis Hxy : 2 ^ 52 <= Zpos mx * Zpos my.

Lemma Prim2SF_mul_finite :
  Prim2SF (x * y)%float
  = binary_round_aux prec emax false (Zpos (mx * my)) (ex + ey) loc_Exact.
Proof. rewrite mul_spec, Hx, Hy. reflexivity. Qed.

(** A product that is at least a representable number rounds to at
    least that number. *)
Lemma mul_ge (mf : positive) (ef : Z) :
  bounded prec emax mf ef = true ->
  (val (Zpos mf) ef <= val (Zpos mx) ex * val (Zpos my) ey)%Q ->
  match Prim2SF (x * y)%float with
  | S754_finite false m e => (val (Zpos mf) ef <= val (Zpos m) e)%Q
  | S754_infinity false => True
  | _ => False
  end.
Proof.
  intros Hb Hle. rewrite Prim2SF_mul_finite.
  apply round_ge; [rewrite Pos2Z.inj_mul; exact Hxy | exact Hb | ].
  rewrite Pos2Z.inj_mul, val_mul. exact Hle.
Qed.

(** A product below a representable number rounds to at most that
    number. *)
Lemma mul_lt (mf : positive) (ef : Z) :
  bounded prec emax mf ef = true ->
  (val (Zpos mx) ex * val (Zpos my) ey < val (Zpos mf) ef)%Q ->
  match Prim2SF (x * y)%float with
  | S754_zero false => True
  | S754_finite false m e => (val (Zpos m) e <= val (Zpos mf) ef)%Q
  | _ => False
  end.
Proof.
  intros Hb Hlt. rewrite Prim2SF_mul_finite.
  apply round_lt; [rewrite Pos2Z.inj_mul; exact Hxy | exact Hb | ].
  rewrite Pos2Z.inj_mul, val_mul. exact Hlt.
Qed.

End Products.

(** The constants of the script. *)
Lemma Prim2SF_72 : Prim2SF 72 = S754_finite false 5066549580791808 (-46).
Proof. vm_compute. reflexivity. Qed.

Lemma Prim2SF_25 : Prim2SF 25 = S754_finite false 7036874417766400 (-48).
Proof. vm_compute. reflexivity. Qed.

Lemma Prim2SF_0_8 : Prim2SF 0.8 = S754_finite false 7205759403792794 (-53).
Proof. vm_compute. reflexivity. Qed.

Lemma Prim2SF_1_2 : Prim2SF 1.2 = S754_finite false 5404319552844595 (-52).
Proof. vm_compute. reflexivity. Qed.

Lemma Prim2SF_0_1 : Prim2SF 0.1 = S754_finite false 7205759403792794 (-56).
Proof. vm_compute. reflexivity. Qed.

Lemma Prim2SF_1 : Prim2SF 1 = S754_finite false 4503599627370496 (-52).
Proof. vm_compute. reflexivity. Qed.

Lemma Prim2SF_200 : Prim2SF 200 = S754_finite false 7036874417766400 (-45).
Proof. vm_compute. reflexivity. Qed.

(* ================================================================== *)
(** ** The eGFR formula *)

Lemma Prim2SF_zero : Prim2SF 0 = S754_zero false.
Proof. vm_compute. reflexivity. Qed.

(** [float(140 - age)] does not overflow for an age of the widget's
    range. *)
Lemma float_of_int_small (k : nat) :
  (k <= 140)%nat ->
  Py.float_of_int (Z.of_nat k) = Ok (Py.Z2float (Z.of_nat k)).
Proof.
  intros Hk.
  do 141 (destruct k as [ | k]; [vm_compute; reflexivity | ]).
  lia.
Qed.

Lemma float_of_int_140_minus_age (age : Z) :
  0 <= age <= 120 ->
  Py.float_of_int (140 - age) = Ok (Py.Z2float (140 - age)).
Proof.
  intros Hage.
  replace (140 - age) with (Z.of_nat (Z.to_nat (140 - age))) by lia.
  apply float_of_int_small. lia.
Qed.

(** The divisor [72 * creat] is not zero when [creat >= 0.1]. *)
Lemma divisor_nonzero (creat : float) :
  (0.1 <=? creat)%float = true ->
  PrimFloat.eqb (72 * creat) 0 = false.
Proof.
  intros Hle. rewrite eqb_spec, Prim2SF_zero.
  destruct (leb_lower_bound _ _ _ _ Prim2SF_0_1 Hle)
    as [Hinf | (m & e & Hc & Hb & Hv)].
  - rewrite mul_spec, Prim2SF_72, Hinf. reflexivity.
  - assert (H52 : 2 ^ 52 <= 5066549580791808 * Zpos m) by lia.
    pose proof (mul_ge 72 creat _ _ _ _ Prim2SF_72 Hc H52
                  (2 ^ 52)%positive (-50) eq_refl) as Hge.
    assert (H72 : (val 5066549580791808 (-46) == 72)%Q)
      by (vm_compute; reflexivity).
    assert (H01 : (1 # 16 <= val 7205759403792794 (-56))%Q)
      by (vm_compute; discriminate).
    assert (H4 : (val (Zpos (2 ^ 52)) (-50) == 4)%Q)
      by (vm_compute; reflexivity).
    rewrite H72, H4 in Hge.
    destruct (Prim2SF (72 * creat)) as [s | s | | s m' e'];
      try destruct s; try reflexivity; exfalso; apply Hge; lra.
Qed.

(** C6: the eGFR estimate is ((140 - age) * weight * sex_factor) /
    (72 * creatinine), with sex_factor 0.85 for Female and 1.0
    otherwise, the binary64 quotient unrounded further; the division
    raises no ZeroDivisionError when creatinine >= 0.1 (with the age in
    its range 0-120). *)
Theorem egfr_formula (age : Z) (wt : float) (sex : string) (creat : float) :
  0 <= age <= 120 ->
  (0.1 <=? creat)%float = true ->
  egfr_of age wt sex creat
  = Ok ((Py.Z2float (140 - age) * wt
         * (if String.eqb sex "Female" then 0.85 else 1.0))
        / (72 * creat))%float.
Proof.
  intros Hage Hcreat. unfold egfr_of, Py.float_div, sex_factor.
  rewrite (float_of_int_140_minus_age age Hage).
  rewrite (divisor_nonzero creat Hcreat). reflexivity.
Qed.

Lemma egfr_formula_witness :
  egfr_of 25 60 "Male" 0.9
  = Ok ((Py.Z2float (140 - 25) * 60
         * (if String.eqb "Male" "Female" then 0.85 else 1.0))
        / (72 * 0.9))%float.
Proof.
  apply (egfr_formula 25 60 "Male" 0.9); [lia | vm_compute; reflexivity].
Defined.

(** Without the constraint the division can fail: a zero creatinine
    raises. *)
Example egfr_zero_creatinine :
  egfr_of 25 60 "Male" 0 = Raise ZeroDivisionError.
Proof. vm_compute. reflexivity. Qed.

(* ================================================================== *)
(** ** The Pyrazinamide dosage rule *)

(** The target of a weight of at least 1 kg is the positive infinity or a
    valid positive number, at least 16. *)
Lemma z_target_cases (w : float) :
  (1 <=? w)%float = true ->
  Prim2SF (z_target_of w) = S754_infinity false \/
  exists m e,
    Prim2SF (z_target_of w) = S754_finite false m e /\
    bounded prec emax m e = true /\
    (16 <= val (Zpos m) e)%Q.
Proof.
  intros Hle. unfold z_target_of.
  pose proof (Prim2SF_valid (w * 25)) as Hvalid.
  destruct (leb_lower_bound _ _ _ _ Prim2SF_1 Hle)
    as [Hinf | (m & e & Hw & Hb & Hv)].
  - left. rewrite mul_spec, Prim2SF_25, Hinf. reflexivity.
  - assert (H52 : 2 ^ 52 <= Zpos m * 7036874417766400) by lia.
    pose proof (mul_ge w 25 _ _ _ _ Hw Prim2SF_25 H52
                  (2 ^ 52)%positive (-48) eq_refl) as Hge.
    assert (H25 : (val 7036874417766400 (-48) == 25)%Q)
      by (vm_compute; reflexivity).
    assert (H1 : (val 4503599627370496 (-52) == 1)%Q)
      by (vm_compute; reflexivity).
    assert (H16 : (val (Zpos (2 ^ 52)) (-48) == 16)%Q)
      by (vm_compute; reflexivity).
    rewrite H25, H16 in Hge. rewrite H1 in Hv.
    destruct (Prim2SF (w * 25)) as [s | s | | s m' e'];
      try destruct s;
      try (exfalso; apply Hge; nra).
    + left. reflexivity.
    + right. exists m', e'. split; [reflexivity | ].
      split; [exact Hvalid | ]. rewrite <- H16. apply Hge. nra.
Qed.

Section TargetBands.

Variables (t : float) (mt : positive) (et : Z).
Hypothesis Ht : Prim2SF t = S754_finite false mt et.
Hypothesis Hbt : bounded prec emax mt et = true.

(** [t * 0.8] is zero or a positive number, at most [t]. *)
Lemma lower_band_le :
  match Prim2SF (t * 0.8)%float with
  | S754_zero false => True
  | S754_finite false m e => (val (Zpos m) e <= val (Zpos mt) et)%Q
  | _ => False
  end.
Proof.
  assert (H52 : 2 ^ 52 <= Zpos mt * 7205759403792794) by lia.
  apply (mul_lt t 0.8 _ _ _ _ Ht Prim2SF_0_8 H52 mt et Hbt).
  assert (H08 : (val 7205759403792794 (-53) < 1)%Q)
    by (vm_compute; reflexivity).
  pose proof (val_pos (Zpos mt) et ltac:(lia)). nra.
Qed.

(** [t * 1.2] is the positive infinity or a positive number, at least
    [t]. *)
Lemma upper_band_ge :
  match Prim2SF (t * 1.2)%float with
  | S754_finite false m e => (val (Zpos mt) et <= val (Zpos m) e)%Q
  | S754_infinity false => True
  | _ => False
  end.
Proof.
  assert (H52 : 2 ^ 52 <= Zpos mt * 5404319552844595) by lia.
  apply (mul_ge t 1.2 _ _ _ _ Ht Prim2SF_1_2 H52 mt et Hbt).
  assert (H12 : (1 < val 5404319552844595 (-52))%Q)
    by (vm_compute; reflexivity).
  pose proof (val_pos (Zpos mt) et ltac:(lia)). nra.
Qed.

End TargetBands.

(** A float at most [v] exceeds no integer that a float at least [v]
    falls below. *)
Lemma squeezed_exclusive (lo hi : spec_float) (v : Q) (n : Z) :
  (0 < v)%Q ->
  match lo with
  | S754_zero false => True
  | S754_finite false m e => (val (Zpos m) e <= v)%Q
  | _ => False
  end ->
  match hi with
  | S754_finite false m e => (v <= val (Zpos m) e)%Q
  | S754_infinity false => True
  | _ => False
  end ->
  Py.SFcompare_int lo n = Some Gt ->
  Py.SFcompare_int hi n <> Some Lt.
Proof.
  intros Hv Hlo Hhi Hgt Hlt.
  assert (Hn : (inject_Z n < v)%Q).
  { destruct lo as [s | s | | s m e]; try destruct s; try contradiction;
      injection Hgt as Hgt; apply Qgt_alt in Hgt.
    - cbn [Py.SF2Q] in Hgt. lra.
    - exact (Qlt_le_trans _ _ _ Hgt Hlo). }
  destruct hi as [s | s | | s m e]; try destruct s; try contradiction.
  - discriminate Hlt.
  - injection Hlt as Hlt. apply Qlt_alt in Hlt.
    apply (Qlt_irrefl v).
    apply (Qle_lt_trans _ _ _ Hhi). exact (Qlt_trans _ _ _ Hlt Hn).
Qed.

(** The two warnings exclude each other: a dose below [target * 0.8] is
    not above [target * 1.2]. *)
Lemma bands_exclusive (w : float) (z_dose : Z) :
  (1 <=? w)%float = true ->
  Py.int_lt_float z_dose (z_target_of w * 0.8)%float = true ->
  Py.int_gt_float z_dose (z_target_of w * 1.2)%float = false.
Proof.
  intros Hw.
  unfold Py.int_lt_float, Py.int_gt_float, Py.float_gt_int, Py.float_lt_int,
    Py.compare_float_int.
  destruct (z_target_cases w Hw) as [Hinf | (m & e & Ht & Hb & _)].
  - rewrite !mul_spec, Hinf, Prim2SF_0_8, Prim2SF_1_2. reflexivity.
  - pose proof (lower_band_le _ _ _ Ht Hb) as Hlo.
    pose proof (upper_band_ge _ _ _ Ht Hb) as Hhi.
    pose proof (squeezed_exclusive _ _ _ z_dose
                  (val_pos (Zpos m) e ltac:(lia)) Hlo Hhi) as Hex.
    destruct (Py.SFcompare_int (Prim2SF (z_target_of w * 0.8)) z_dose)
      as [[ | | ] | ]; try discriminate.
    intros _.
    destruct (Py.SFcompare_int (Prim2SF (z_target_of w * 1.2)) z_dose)
      as [[ | | ] | ]; try reflexivity.
    exfalso. apply Hex; reflexivity.
Qed.

(** C5: for every dose and every weight of at least 1 kg (so for the
    whole range 1-200 of the weight), with target = weight * 25, the
    Pyrazinamide check shows the low warning exactly when
    dose < target * 0.8, the high warning exactly when
    dose > target * 1.2, and the pass message otherwise, so also at the
    two bounds themselves. *)
Theorem pyrazinamide_rule (data : patient_data) :
  (1 <=? weight_of data)%float = true ->
  (run (pyrazinamide_check data)
   = ([pyrazinamide_low (z_target_of (weight_of data)) (get (dose_Z data) 0)],
      Ok tt) <->
   Py.int_lt_float (get (dose_Z data) 0)
     (z_target_of (weight_of data) * 0.8)%float = true) /\
  (run (pyrazinamide_check data) = ([pyrazinamide_high], Ok tt) <->
   Py.int_gt_float (get (dose_Z data) 0)
     (z_target_of (weight_of data) * 1.2)%float = true) /\
  (run (pyrazinamide_check data) = ([pyrazinamide_pass], Ok tt) <->
   Py.int_lt_float (get (dose_Z data) 0)
     (z_target_of (weight_of data) * 0.8)%float = false /\
   Py.int_gt_float (get (dose_Z data) 0)
     (z_target_of (weight_of data) * 1.2)%float = false).
Proof.
  intros Hlo.
  pose proof (bands_exclusive _ (get (dose_Z data) 0) Hlo) as Hex.
  unfold run, pyrazinamide_check.
  set (w := weight_of data) in *. set (d := get (dose_Z data) 0) in *.
  destruct (Py.int_lt_float d (z_target_of w * 0.8)) eqn:Hlow;
    [rewrite (Hex eq_refl) | ];
    try destruct (Py.int_gt_float d (z_target_of w * 1.2)) eqn:Hhigh;
    cbn [emit app]; unfold pyrazinamide_low, pyrazinamide_high,
      pyrazinamide_pass;
    repeat split; intros; try discriminate; try reflexivity;
    try (destruct H; discriminate).
Qed.

Lemma pyrazinamide_rule_witness :
  (run (pyrazinamide_check (pyrazinamide_example 60 1100))
   = ([pyrazinamide_low (z_target_of 60) 1100], Ok tt) <->
   Py.int_lt_float 1100 (z_target_of 60 * 0.8)%float = true) /\
  (run (pyrazinamide_check (pyrazinamide_example 60 1100))
   = ([pyrazinamide_high], Ok tt) <->
   Py.int_gt_float 1100 (z_target_of 60 * 1.2)%float = true) /\
  (run (pyrazinamide_check (pyrazinamide_example 60 1100))
   = ([pyrazinamide_pass], Ok tt) <->
   Py.int_lt_float 1100 (z_target_of 60 * 0.8)%float = false /\
   Py.int_gt_float 1100 (z_target_of 60 * 1.2)%float = false).
Proof.
  apply (pyrazinamide_rule (pyrazinamide_example 60 1100)).
  vm_compute. reflexivity.
Defined.

(** The sample evaluations of the Pyrazinamide rule at weight 60: the
    target is 1500, the bounds are 1200 and 1800. *)
Example pyrazinamide_target_60 :
  z_target_of 60 = 1500%float /\
  (z_target_of 60 * 0.8 = 1200)%float /\
  (z_target_of 60 * 1.2 = 1800)%float.
Proof. repeat split; vm_compute; reflexivity. Qed.

Example pyrazinamide_60_1500 :
  run (pyrazinamide_check (pyrazinamide_example 60 1500))
  = ([pyrazinamide_pass], Ok tt).
Proof. vm_compute. reflexivity. Qed.

Example pyrazinamide_60_1100 :
  run (pyrazinamide_check (pyrazinamide_example 60 1100))
  = ([pyrazinamide_low 1500 1100], Ok tt).
Proof. vm_compute. reflexivity. Qed.

Example pyrazinamide_60_1900 :
  run (pyrazinamide_check (pyrazinamide_example 60 1900))
  = ([pyrazinamide_high], Ok tt).
Proof. vm_compute. reflexivity. Qed.

Example pyrazinamide_60_1200 :
  run (pyrazinamide_check (pyrazinamide_example 60 1200))
  = ([pyrazinamide_pass], Ok tt).
Proof. vm_compute. reflexivity. Qed.

Example pyrazinamide_60_1800 :
  run (pyrazinamide_check (pyrazinamide_example 60 1800))
  = ([pyrazinamide_pass], Ok tt).
Proof. vm_compute. reflexivity. Qed.

(* ================================================================== *)
(** ** Totality of the evaluation page *)

Lemma duration_check_log (data : patient_data) (ty : string)
    (log : list st_call) :
  eptb_type data = Some ty ->
  exists l status, duration_check data log = (log ++ l, Ok status).
Proof.
  intros Hty. unfold duration_check, bind, emit, item, ret. rewrite Hty.
  destruct (is_severe_type data && (total_duration data <? 9));
    [ | destruct (negb (is_severe_type data) && (total_duration data <? 6))];
    rewrite <- !app_assoc; do 2 eexists; reflexivity.
Qed.

Lemma rifampicin_check_log (data : patient_data) (log : list st_call) :
  exists c, rifampicin_check data log = (log ++ [c], Ok tt).
Proof.
  unfold rifampicin_check, emit.
  destruct (Py.float_gt_int (weight_of data) 50 && (get (dose_R data) 0 <? 600));
    [ | destruct (Py.float_lt_int (weight_of data) 50
                  && (get (dose_R data) 0 >=? 600))];
    eexists; reflexivity.
Qed.

Lemma pyrazinamide_check_log (data : patient_data) (log : list st_call) :
  exists c, pyrazinamide_check data log = (log ++ [c], Ok tt).
Proof.
  unfold pyrazinamide_check, emit.
  destruct (Py.int_lt_float _ _); [ | destruct (Py.int_gt_float _ _)];
    eexists; reflexivity.
Qed.

Lemma regimen_check_log (data : patient_data) (log : list st_call) :
  exists l, regimen_check data log = (log ++ l, Ok tt).
Proof.
  unfold regimen_check, bind, emit, ret.
  destruct (_ && _); rewrite <- !app_assoc; eexists; reflexivity.
Qed.

Lemma pharmacotherapy_eval_page_total (data : patient_data) (ty : string) :
  eptb_type data = Some ty ->
  exists log, run (pharmacotherapy_eval_page data) = (log, Ok tt).
Proof.
  intros Hty. unfold run, pharmacotherapy_eval_page, bind. cbn [emit].
  destruct (duration_check_log data ty ([] ++ [st_title [Lit "Pharmacotherapy Evaluation Engine"]]) Hty)
    as (l1 & status & ->).
  cbn [emit].
  destruct (rifampicin_check_log data
              ((([] ++ [st_title [Lit "Pharmacotherapy Evaluation Engine"]]) ++ l1)
                 ++ [st_subheader [Lit "2. Dosage Verification"]]))
    as (c2 & ->).
  match goal with
  | |- context [pyrazinamide_check data ?log] =>
      destruct (pyrazinamide_check_log data log) as (c3 & ->)
  end.
  match goal with
  | |- context [regimen_check data ?log] =>
      destruct (regimen_check_log data log) as (l4 & ->)
  end.
  eexists. reflexivity.
Qed.

(** With no dose stored the lower bound of a weight of at least 1 kg is
    above the dose 0. *)
Lemma lower_band_positive (w : float) :
  (1 <=? w)%float = true ->
  Py.int_lt_float 0 (z_target_of w * 0.8)%float = true.
Proof.
  intros Hw.
  unfold Py.int_lt_float, Py.float_gt_int, Py.compare_float_int.
  destruct (z_target_cases w Hw) as [Hinf | (m & e & Ht & Hb & Hv)].
  - rewrite mul_spec, Hinf, Prim2SF_0_8. reflexivity.
  - assert (H52 : 2 ^ 52 <= Zpos m * 7205759403792794) by lia.
    pose proof (mul_ge _ 0.8 _ _ _ _ Ht Prim2SF_0_8 H52
                  (2 ^ 52)%positive (-49) eq_refl) as Hge.
    assert (H08 : (1 # 2 <= val 7205759403792794 (-53))%Q)
      by (vm_compute; discriminate).
    assert (H8 : (val (Zpos (2 ^ 52)) (-49) == 8)%Q)
      by (vm_compute; reflexivity).
    rewrite H8 in Hge.
    destruct (Prim2SF (z_target_of w * 0.8)) as [s | s | | s m' e'];
      try destruct s; try (exfalso; apply Hge; nra); try reflexivity.
    assert (Hpos : (8 <= val (Zpos m') e')%Q)
      by (rewrite <- H8; apply Hge; nra).
    cbn [Py.SFcompare_int].
    change (Py.SF2Q (S754_finite false m' e')) with (val (Zpos m') e').
    assert (Hgt : (val (Zpos m') e' ?= inject_Z 0)%Q = Gt)
      by (apply Qgt_alt; change (inject_Z 0) with 0%Q; lra).
    rewrite Hgt. reflexivity.
Qed.

(** C7, as stated, fails: with no Rifampicin dose stored and a weight of
    40 kg, the Rifampicin check reads the dose as 0 and shows the pass
    message, neither a warning nor a failure. *)
Lemma absent_dose_R_passes :
  dose_R absent_dose_R_example = None /\
  run (rifampicin_check absent_dose_R_example)
  = ([rifampicin_pass 0 40], Ok tt) /\
  ~ (exists v,
       In v (verdicts (fst (run (rifampicin_check absent_dose_R_example)))) /\
       (v = Warning \/ v = Fail)).
Proof.
  split; [reflexivity | ]. split; [vm_compute; reflexivity | ].
  intros (v & Hin & Hv).
  assert (Hrun : verdicts (fst (run (rifampicin_check absent_dose_R_example)))
                 = [Pass]) by (vm_compute; reflexivity).
  rewrite Hrun in Hin. destruct Hin as [<- | []].
  destruct Hv; discriminate.
Qed.

(** C7, amended: for every record holding an EPTB type the evaluation
    page completes without raising, whatever the doses (also all zero or
    absent); an absent dose or duration is read as 0, and the affected
    check still shows its verdict: the duration check fails when both
    durations are absent, the Pyrazinamide check shows the low warning
    when the dose is absent (weight at least 1 kg), and the Rifampicin
    check shows the underdose warning when the dose is absent and the
    weight is above 50, the pass message otherwise. *)
Theorem evaluation_total (data : patient_data) (ty : string) :
  eptb_type data = Some ty ->
  (exists log, run (pharmacotherapy_eval_page data) = (log, Ok tt)) /\
  (ip_duration data = None -> cp_duration data = None ->
   exists log,
     run (duration_check data) = (log, Ok "Fail") /\ verdicts log = [Fail]) /\
  (dose_Z data = None -> (1 <=? weight_of data)%float = true ->
   run (pyrazinamide_check data)
   = ([pyrazinamide_low (z_target_of (weight_of data)) 0], Ok tt)) /\
  (dose_R data = None ->
   run (rifampicin_check data)
   = ([if Py.float_gt_int (weight_of data) 50
       then rifampicin_underdose 0
       else rifampicin_pass 0 (weight_of data)], Ok tt)).
Proof.
  intros Hty. split; [exact (pharmacotherapy_eval_page_total data ty Hty) | ].
  split; [ | split].
  - intros Hip Hcp.
    unfold run, duration_check, is_severe_type, total_duration.
    rewrite Hty, Hip, Hcp. cbn [get Z.add].
    destruct (Py.str_in ty severe_types); cbn;
      eexists; split; reflexivity.
  - intros Hz Hw. unfold run, pyrazinamide_check. rewrite Hz. cbn [get].
    rewrite (lower_band_positive _ Hw). reflexivity.
  - intros Hr. unfold run, rifampicin_check. rewrite Hr. cbn [get].
    change (0 <? 600) with true. change (0 >=? 600) with false.
    rewrite andb_true_r, andb_false_r.
    destruct (Py.float_gt_int (weight_of data) 50); reflexivity.
Qed.

Lemma evaluation_total_witness :
  (exists log,
     run (pharmacotherapy_eval_page absent_dose_R_example) = (log, Ok tt)) /\
  (ip_duration absent_dose_R_example = None ->
   cp_duration absent_dose_R_example = None ->
   exists log,
     run (duration_check absent_dose_R_example) = (log, Ok "Fail") /\
     verdicts log = [Fail]) /\
  (dose_Z absent_dose_R_example = None ->
   (1 <=? weight_of absent_dose_R_example)%float = true ->
   run (pyrazinamide_check absent_dose_R_example)
   = ([pyrazinamide_low (z_target_of (weight_of absent_dose_R_example)) 0],
      Ok tt)) /\
  (dose_R absent_dose_R_example = None ->
   run (rifampicin_check absent_dose_R_example)
   = ([if Py.float_gt_int (weight_of absent_dose_R_example) 50
       then rifampicin_underdose 0
       else rifampicin_pass 0 (weight_of absent_dose_R_example)], Ok tt)).
Proof.
  apply (evaluation_total absent_dose_R_example "Pleural TB"). reflexivity.
Defined.

(** The page does raise on a record that holds no EPTB type (page 2 not
    visited) once the durations reach the 6-month minimum: the pass
    message reads [data['eptb_type']]. *)
Example absent_eptb_type_raises :
  snd (run (pharmacotherapy_eval_page absent_eptb_type_example))
  = Raise (KeyError "eptb_type").
Proof. vm_compute. reflexivity. Qed.

(* ================================================================== *)
(** * Further properties of the pages *)

(** ** The evaluation page as a whole *)

Lemma verdicts_app (l1 l2 : list st_call) :
  verdicts (l1 ++ l2) = verdicts l1 ++ verdicts l2.
Proof.
  induction l1 as [ | c l1 IH]; [reflexivity | ].
  cbn [app verdicts]. destruct (verdict_of c); rewrite IH; reflexivity.
Qed.

Lemma bind_ok {A B : Type} (m : st A) (k : A -> st B)
    (log log' : list st_call) (a : A) :
  m log = (log', Ok a) -> bind m k log = k a log'.
Proof. intros H. unfold bind. rewrite H. reflexivity. Qed.

Lemma bind_raise {A B : Type} (m : st A) (k : A -> st B)
    (log log' : list st_call) (e : exn) :
  m log = (log', Raise e) -> bind m k log = (log', Raise e).
Proof. intros H. unfold bind. rewrite H. reflexivity. Qed.

Lemma rifampicin_check_verdict (data : patient_data) (log : list st_call) :
  exists c,
    rifampicin_check data log = (log ++ [c], Ok tt) /\
    (verdict_of c = Some Warning \/ verdict_of c = Some Pass).
Proof.
  unfold rifampicin_check, emit.
  destruct (Py.float_gt_int (weight_of data) 50 && (get (dose_R data) 0 <? 600));
    [ | destruct (Py.float_lt_int (weight_of data) 50
                  && (get (dose_R data) 0 >=? 600))];
    eexists; (split; [reflexivity | ]); cbn; auto.
Qed.

Lemma pyrazinamide_check_verdict (data : patient_data) (log : list st_call) :
  exists c,
    pyrazinamide_check data log = (log ++ [c], Ok tt) /\
    (verdict_of c = Some Warning \/ verdict_of c = Some Pass).
Proof.
  unfold pyrazinamide_check, emit.
  destruct (Py.int_lt_float _ _); [ | destruct (Py.int_gt_float _ _)];
    eexists; (split; [reflexivity | ]); cbn; auto.
Qed.

Lemma regimen_check_verdicts (data : patient_data) (log : list st_call) :
  exists l,
    regimen_check data log = (log ++ l, Ok tt) /\
    verdicts l = (if streptomycin_note_due data then [Info] else []) ++ [Pass].
Proof.
  unfold regimen_check, bind, emit, ret. fold (streptomycin_note_due data).
  destruct (streptomycin_note_due data); rewrite <- !app_assoc;
    eexists; (split; [reflexivity | ]); reflexivity.
Qed.

(** The part of the page after the duration check: it completes and
    shows the Rifampicin verdict, the Pyrazinamide verdict, the note
    when it is due, and the regimen-structure pass. *)
Lemma dosage_and_regimen (data : patient_data) (log : list st_call) :
  exists l v2 v3,
    (emit (st_subheader [Lit "2. Dosage Verification"]) ;;;
     rifampicin_check data ;;;
     pyrazinamide_check data ;;;
     regimen_check data) log = (log ++ l, Ok tt) /\
    verdicts l
    = v2 :: v3 :: (if streptomycin_note_due data then [Info] else []) ++ [Pass] /\
    (v2 = Warning \/ v2 = Pass) /\ (v3 = Warning \/ v3 = Pass).
Proof.
  unfold bind. cbn [emit].
  destruct (rifampicin_check_verdict data
              (log ++ [st_subheader [Lit "2. Dosage Verification"]]))
    as (c2 & -> & H2).
  match goal with
  | |- context [pyrazinamide_check data ?log'] =>
      destruct (pyrazinamide_check_verdict data log') as (c3 & -> & H3)
  end.
  match goal with
  | |- context [regimen_check data ?log'] =>
      destruct (regimen_check_verdicts data log') as (l4 & -> & H4)
  end.
  exists ([st_subheader [Lit "2. Dosage Verification"]] ++ [c2] ++ [c3] ++ l4).
  assert (Hv : exists v2 v3,
             verdict_of c2 = Some v2 /\ verdict_of c3 = Some v3 /\
             (v2 = Warning \/ v2 = Pass) /\ (v3 = Warning \/ v3 = Pass)).
  { destruct H2 as [H2 | H2], H3 as [H3 | H3];
      do 2 eexists; (split; [exact H2 | ]); (split; [exact H3 | ]); auto. }
  destruct Hv as (v2 & v3 & Hc2 & Hc3 & Hv2 & Hv3).
  exists v2, v3. split; [ | split; [ | split; assumption]].
  - rewrite <- !app_assoc. reflexivity.
  - cbn [app verdicts verdict_of]. rewrite Hc2, Hc3, H4. reflexivity.
Qed.

Lemma duration_check_verdict (data : patient_data) (ty : string)
    (log : list st_call) :
  eptb_type data = Some ty ->
  exists l v1 status,
    duration_check data log = (log ++ l, Ok status) /\
    verdicts l = [v1] /\ (v1 = Fail \/ v1 = Pass).
Proof.
  intros Hty. unfold duration_check, bind, emit, item, ret. rewrite Hty.
  destruct (is_severe_type data && (total_duration data <? 9));
    [ | destruct (negb (is_severe_type data) && (total_duration data <? 6))];
    rewrite <- !app_assoc; do 3 eexists;
    (split; [reflexivity | ]); (split; [reflexivity | ]); auto.
Qed.

(** X2: on a record that holds an EPTB type the evaluation page shows
    its verdicts in one fixed order: the duration verdict (Fail or Pass),
    the Rifampicin verdict and the Pyrazinamide verdict (Warning or
    Pass), the Streptomycin note when it is due, and last the
    regimen-structure pass, which is shown whatever the checks before it
    found. *)
Theorem evaluation_verdicts (data : patient_data) (ty : string) :
  eptb_type data = Some ty ->
  exists v1 v2 v3,
    verdicts (fst (run (pharmacotherapy_eval_page data)))
    = v1 :: v2 :: v3
      :: (if streptomycin_note_due data then [Info] else []) ++ [Pass] /\
    snd (run (pharmacotherapy_eval_page data)) = Ok tt /\
    (v1 = Fail \/ v1 = Pass) /\
    (v2 = Warning \/ v2 = Pass) /\
    (v3 = Warning \/ v3 = Pass).
Proof.
  intros Hty.
  assert (Hpage : exists log v1 v2 v3,
             run (pharmacotherapy_eval_page data) = (log, Ok tt) /\
             verdicts log
             = v1 :: v2 :: v3
               :: (if streptomycin_note_due data then [Info] else []) ++ [Pass] /\
             (v1 = Fail \/ v1 = Pass) /\
             (v2 = Warning \/ v2 = Pass) /\
             (v3 = Warning \/ v3 = Pass)).
  { unfold run, pharmacotherapy_eval_page.
    rewrite (bind_ok _ _ _ _ _ (eq_refl : emit _ [] = (_, Ok tt))).
    destruct (duration_check_verdict data ty
                ([] ++ [st_title [Lit "Pharmacotherapy Evaluation Engine"]]) Hty)
      as (l1 & v1 & status & Hdur & Hl1 & Hv1).
    rewrite (bind_ok _ _ _ _ _ Hdur).
    destruct (dosage_and_regimen data
                (([] ++ [st_title [Lit "Pharmacotherapy Evaluation Engine"]]) ++ l1))
      as (l & v2 & v3 & Hrun & Hl & Hv2 & Hv3).
    rewrite Hrun. eexists. exists v1, v2, v3. split; [reflexivity | ].
    split; [ | repeat split; assumption].
    rewrite !verdicts_app, Hl1, Hl. reflexivity. }
  destruct Hpage as (log & v1 & v2 & v3 & -> & Hlog & Hv).
  exists v1, v2, v3. cbn [fst snd].
  split; [exact Hlog | split; [reflexivity | exact Hv]].
Qed.

Lemma evaluation_verdicts_witness :
  exists v1 v2 v3,
    verdicts (fst (run (pharmacotherapy_eval_page absent_dose_R_example)))
    = v1 :: v2 :: v3
      :: (if streptomycin_note_due absent_dose_R_example then [Info] else [])
         ++ [Pass] /\
    snd (run (pharmacotherapy_eval_page absent_dose_R_example)) = Ok tt /\
    (v1 = Fail \/ v1 = Pass) /\
    (v2 = Warning \/ v2 = Pass) /\
    (v3 = Warning \/ v3 = Pass).
Proof.
  apply (evaluation_verdicts absent_dose_R_example "Pleural TB").
  reflexivity.
Defined.

(** X1: on a record that holds no EPTB type (page 2 not visited) the
    evaluation page raises KeyError('eptb_type') exactly when the two
    durations add up to 6 months or more, after its title and the first
    subheader and before any verdict; below 6 months it completes, with
    the duration failure as first verdict. *)
Theorem missing_eptb_type (data : patient_data) :
  eptb_type data = None ->
  (6 <= total_duration data ->
   run (pharmacotherapy_eval_page data)
   = ([st_title [Lit "Pharmacotherapy Evaluation Engine"];
       st_subheader [Lit "1. Duration Analysis"]],
      Raise (KeyError "eptb_type"))) /\
  (total_duration data < 6 ->
   exists vs,
     verdicts (fst (run (pharmacotherapy_eval_page data))) = Fail :: vs /\
     snd (run (pharmacotherapy_eval_page data)) = Ok tt).
Proof.
  intros Hty. split; intros Hd.
  - unfold run, pharmacotherapy_eval_page.
    rewrite (bind_ok _ _ _ _ _ (eq_refl : emit _ [] = (_, Ok tt))).
    apply bind_raise.
    unfold duration_check, is_severe_type. rewrite Hty. cbn [andb negb].
    destruct (Z.ltb_spec (total_duration data) 6) as [H | H]; [lia | ].
    reflexivity.
  - assert (Hpage : exists log vs,
               run (pharmacotherapy_eval_page data) = (log, Ok tt) /\
               verdicts log = Fail :: vs).
    { unfold run, pharmacotherapy_eval_page.
      rewrite (bind_ok _ _ _ _ _ (eq_refl : emit _ [] = (_, Ok tt))).
      assert (Hdur : exists l,
                 duration_check data
                   ([] ++ [st_title [Lit "Pharmacotherapy Evaluation Engine"]])
                 = (([] ++ [st_title [Lit "Pharmacotherapy Evaluation Engine"]])
                      ++ l, Ok "Fail") /\
                 verdicts l = [Fail]).
      { unfold duration_check, is_severe_type. rewrite Hty. cbn [andb negb].
        destruct (Z.ltb_spec (total_duration data) 6) as [H | H]; [ | lia].
        unfold bind, emit, ret. rewrite <- !app_assoc.
        eexists. split; reflexivity. }
      destruct Hdur as (l1 & Hdur & Hl1).
      rewrite (bind_ok _ _ _ _ _ Hdur).
      destruct (dosage_and_regimen data
                  (([] ++ [st_title [Lit "Pharmacotherapy Evaluation Engine"]]) ++ l1))
        as (l & v2 & v3 & Hrun & Hl & _).
      rewrite Hrun. do 2 eexists. split; [reflexivity | ].
      rewrite !verdicts_app, Hl1, Hl. reflexivity. }
    destruct Hpage as (log & vs & -> & Hlog).
    exists vs. cbn [fst snd]. split; [exact Hlog | reflexivity].
Qed.

Lemma missing_eptb_type_witness :
  (6 <= total_duration absent_eptb_type_example ->
   run (pharmacotherapy_eval_page absent_eptb_type_example)
   = ([st_title [Lit "Pharmacotherapy Evaluation Engine"];
       st_subheader [Lit "1. Duration Analysis"]],
      Raise (KeyError "eptb_type"))) /\
  (total_duration absent_eptb_type_example < 6 ->
   exists vs,
     verdicts (fst (run (pharmacotherapy_eval_page absent_eptb_type_example)))
     = Fail :: vs /\
     snd (run (pharmacotherapy_eval_page absent_eptb_type_example)) = Ok tt).
Proof.
  apply (missing_eptb_type absent_eptb_type_example). reflexivity.
Defined.

(** X3: the evaluation page reads seven keys only (eptb_type, the two
    durations, weight, dose_R, dose_Z and ip_drugs): on two records that
    agree on them it makes the same calls and ends the same way, whatever
    the other keys hold (the Isoniazid and Ethambutol doses, the
    continuation drugs, the eGFR, the liver flag, req_duration among
    them). *)
Theorem evaluation_reads (d1 d2 : patient_data) :
  same_regimen_inputs d1 d2 ->
  run (pharmacotherapy_eval_page d1) = run (pharmacotherapy_eval_page d2).
Proof.
  destruct d1, d2. unfold same_regimen_inputs. cbn.
  intros (-> & -> & -> & -> & -> & -> & ->). reflexivity.
Qed.

Lemma evaluation_reads_witness :
  run (pharmacotherapy_eval_page absent_dose_R_example)
  = run (pharmacotherapy_eval_page other_patient_example).
Proof.
  apply (evaluation_reads absent_dose_R_example other_patient_example).
  repeat split.
Defined.

(** X4: the interaction checker reads hiv_status only, so the Rifampicin
    interaction is reported for an HIV-positive patient whether or not
    Rifampicin is among the drugs; the whole safety page reads ip_drugs
    and hiv_status only. *)
Theorem safety_reads (d1 d2 : patient_data) :
  (hiv_status d1 = hiv_status d2 ->
   run (interaction_checker d1) = run (interaction_checker d2)) /\
  (hiv_status d1 = hiv_status d2 -> ip_drugs d1 = ip_drugs d2 ->
   run (side_effects_page d1) = run (side_effects_page d2)).
Proof.
  destruct d1, d2. cbn. split.
  - intros ->. reflexivity.
  - intros -> ->. reflexivity.
Qed.

(** X5: the side-effect column shows, below its subheader, the lines of
    the table whose drug is among the intensive-phase drugs, in the
    order of the table: one line a drug at most, whatever the order and
    the repetitions of the stored list. *)
Theorem side_effect_lines (data : patient_data) :
  run (predicted_side_effects data)
  = (st_subheader [Lit "Predicted Side Effects"]
       :: map snd
            (filter (fun row => Py.str_in (fst row) (get (ip_drugs data) []))
               side_effect_table),
     Ok tt).
Proof.
  unfold run, predicted_side_effects, side_effect_table.
  cbn [filter map fst snd].
  destruct (Py.str_in "Rifampicin (R)" (get (ip_drugs data) []));
    destruct (Py.str_in "Isoniazid (H)" (get (ip_drugs data) []));
    destruct (Py.str_in "Pyrazinamide (Z)" (get (ip_drugs data) []));
    destruct (Py.str_in "Ethambutol (E)" (get (ip_drugs data) []));
    reflexivity.
Qed.

(** ** The Streptomycin note *)

Lemma str_in_In (x : string) (l : list string) :
  Py.str_in x l = true <-> In x l.
Proof.
  unfold Py.str_in. rewrite existsb_exists. split.
  - intros (y & Hin & Heq). apply String.eqb_eq in Heq. subst y. exact Hin.
  - intros Hin. exists x. split; [exact Hin | apply String.eqb_refl].
Qed.

Lemma no_streptomycin_option (l : list string) :
  incl l ip_drug_options -> Py.str_in "Streptomycin (S)" l = false.
Proof.
  intros Hincl. destruct (Py.str_in "Streptomycin (S)" l) eqn:H; [ | reflexivity].
  apply str_in_In, Hincl in H. cbn in H.
  repeat destruct H as [H | H]; try discriminate H. contradiction.
Qed.

(** X6: Streptomycin is no option of the drug selector, so on a record
    page 3 has stored the absence test of the note always holds: the
    note is shown exactly when the EPTB type is TB Meningitis. *)
Theorem streptomycin_note (w : regimen_widgets) (d : patient_data) :
  regimen_widgets_ok w ->
  (In Info (verdicts (fst (run (regimen_check (prescribed_regimen_store w d)))))
   <-> eptb_type d = Some "TB Meningitis").
Proof.
  intros (Hip & _). unfold run.
  destruct (regimen_check_verdicts (prescribed_regimen_store w d) [])
    as (l & -> & Hl).
  cbn [fst app]. rewrite Hl. unfold streptomycin_note_due.
  cbn [eptb_type ip_drugs prescribed_regimen_store get].
  rewrite (no_streptomycin_option _ Hip). cbn [negb]. rewrite andb_true_r.
  destruct (eptb_type d) as [ty | ].
  - destruct (String.eqb_spec "TB Meningitis" ty) as [<- | Hne]; cbn.
    + split; [reflexivity | auto].
    + split.
      * intros [H | []]. discriminate H.
      * intros H. injection H as H. congruence.
  - cbn. split; [intros [H | []]; discriminate H | discriminate].
Qed.

Lemma streptomycin_note_witness :
  In Info
    (verdicts
       (fst (run (regimen_check
                    (prescribed_regimen_store
                       (regimen_defaults absent_dose_R_example)
                       absent_dose_R_example)))))
  <-> eptb_type absent_dose_R_example = Some "TB Meningitis".
Proof.
  apply (streptomycin_note (regimen_defaults absent_dose_R_example)
           absent_dose_R_example).
  unfold regimen_widgets_ok, regimen_defaults. cbn.
  repeat split; try lia; try apply incl_refl.
  intros x Hx. cbn in Hx |- *. tauto.
Defined.

(** ** The type selector of page 2 *)

Lemma list_index_nth (x : string) (l : list string) (i : nat) :
  list_index x l = Some i -> nth_error l i = Some x.
Proof.
  revert i. induction l as [ | y l IH]; intros i; cbn [list_index];
    [discriminate | ].
  destruct (String.eqb_spec y x) as [-> | Hne].
  - intros H. injection H as <-. reflexivity.
  - destruct (list_index x l) as [j | ]; [ | discriminate].
    intros H. injection H as <-. cbn [nth_error]. apply IH. reflexivity.
Qed.

Lemma list_index_In (x : string) (l : list string) :
  In x l <-> exists i, list_index x l = Some i.
Proof.
  split.
  - induction l as [ | y l IH]; intros Hin; [destruct Hin | ].
    cbn [list_index]. destruct (String.eqb_spec y x) as [-> | Hne].
    + exists 0%nat. reflexivity.
    + destruct Hin as [Heq | Hin]; [contradiction | ].
      destruct (IH Hin) as (i & ->). exists (S i). reflexivity.
  - intros (i & Hi). apply list_index_nth in Hi.
    exact (nth_error_In _ _ Hi).
Qed.

(** X7: the index lookup of the type selector never fails: a fresh
    record shows the first option, and after page 2 has stored a
    selection taken from the options the lookup finds the position of
    that selection, so the selector shows the stored type again. *)
Theorem eptb_type_index_found (sel_type sel_severity : string)
    (d : patient_data) :
  (eptb_type d = None -> eptb_type_index d = Some 0%nat) /\
  (In sel_type eptb_types ->
   exists log d' i,
     run (eptb_type_severity_page sel_type sel_severity d) = (log, Ok d') /\
     eptb_type d' = Some sel_type /\
     eptb_type_index d' = Some i /\
     nth_error eptb_types i = Some sel_type).
Proof.
  split.
  - intros Hty. unfold eptb_type_index. rewrite Hty. reflexivity.
  - intros Hin. apply list_index_In in Hin. destruct Hin as (i & Hi).
    pose proof (list_index_nth _ _ _ Hi) as Hnth.
    unfold run, eptb_type_severity_page.
    cbn [set_eptb_type set_severity eptb_type item bind emit ret app].
    destruct (Py.str_in sel_type severe_types); cbn;
      do 2 eexists; exists i;
      (split; [reflexivity | ]); (split; [reflexivity | ]);
      (split; [exact Hi | exact Hnth]).
Qed.

(** ** Pages 2 and 3 together *)

(** X8: pages 2 and 3 store different keys, so they can be visited in
    either order with the same stored record; after both, whatever the
    record held before, the evaluation page completes without raising
    and reads no default: the total duration is the sum of the two
    stored durations. *)
Theorem pages_2_3_commute (sel_type sel_severity : string)
    (w : regimen_widgets) (d : patient_data) :
  exists log d2,
    run (eptb_type_severity_page sel_type sel_severity d) = (log, Ok d2) /\
    run (eptb_type_severity_page sel_type sel_severity
           (prescribed_regimen_store w d))
    = (log, Ok (prescribed_regimen_store w d2)) /\
    total_duration (prescribed_regimen_store w d2)
    = w_ip_duration w + w_cp_duration w /\
    snd (run (pharmacotherapy_eval_page (prescribed_regimen_store w d2)))
    = Ok tt.
Proof.
  assert (H2 : exists log d2,
             run (eptb_type_severity_page sel_type sel_severity d)
             = (log, Ok d2) /\
             run (eptb_type_severity_page sel_type sel_severity
                    (prescribed_regimen_store w d))
             = (log, Ok (prescribed_regimen_store w d2)) /\
             eptb_type d2 = Some sel_type).
  { unfold run, eptb_type_severity_page.
    cbn [set_eptb_type set_severity eptb_type item bind emit ret app
         prescribed_regimen_store].
    destruct (Py.str_in sel_type severe_types); cbn;
      do 2 eexists; repeat split. }
  destruct H2 as (log & d2 & H2 & H32 & Hty).
  exists log, d2. split; [exact H2 | ]. split; [exact H32 | ].
  split; [reflexivity | ].
  destruct (pharmacotherapy_eval_page_total
              (prescribed_regimen_store w d2) sel_type Hty) as (log4 & ->).
  reflexivity.
Qed.

(** X9: for TB Meningitis and Bone/Joint TB page 2 stores a required
    duration of 12 months, but the duration check of the evaluation page
    applies 9: a regimen of 9, 10 or 11 months passes though it is
    shorter than the stored req_duration. *)
Theorem severe_type_passes_from_9 (sel_type sel_severity : string)
    (w : regimen_widgets) (d : patient_data) :
  sel_type = "TB Meningitis" \/ sel_type = "Bone/Joint TB" ->
  9 <= w_ip_duration w + w_cp_duration w < 12 ->
  exists log d2,
    run (eptb_type_severity_page sel_type sel_severity d) = (log, Ok d2) /\
    req_duration (prescribed_regimen_store w d2) = Some 12 /\
    total_duration (prescribed_regimen_store w d2) < 12 /\
    snd (run (duration_check (prescribed_regimen_store w d2))) = Ok "Pass".
Proof.
  intros Hsev Hdur. apply str_in_severe_types in Hsev.
  unfold run, eptb_type_severity_page.
  cbn [set_eptb_type set_severity eptb_type item bind emit ret app].
  rewrite Hsev. cbn. do 2 eexists. split; [reflexivity | ].
  split; [reflexivity | ].
  unfold total_duration, duration_check, is_severe_type.
  cbn [prescribed_regimen_store ip_duration cp_duration eptb_type
       set_req_duration set_severity set_eptb_type get].
  split; [lia | ]. rewrite Hsev.
  destruct (Z.ltb_spec (w_ip_duration w + w_cp_duration w) 9) as [H | H];
    [lia | ].
  reflexivity.
Qed.

Lemma severe_type_passes_from_9_witness :
  exists log d2,
    run (eptb_type_severity_page "TB Meningitis" "Severe" empty_data)
    = (log, Ok d2) /\
    req_duration
      (prescribed_regimen_store
         (mk_regimen_widgets ip_drug_options 2 cp_drug_options 7 300 600 1500 1200)
         d2) = Some 12 /\
    total_duration
      (prescribed_regimen_store
         (mk_regimen_widgets ip_drug_options 2 cp_drug_options 7 300 600 1500 1200)
         d2) < 12 /\
    snd (run (duration_check
                (prescribed_regimen_store
                   (mk_regimen_widgets ip_drug_options 2 cp_drug_options 7
                      300 600 1500 1200)
                   d2))) = Ok "Pass".
Proof.
  apply (severe_type_passes_from_9 "TB Meningitis" "Severe"
           (mk_regimen_widgets ip_drug_options 2 cp_drug_options 7
              300 600 1500 1200) empty_data).
  - left. reflexivity.
  - cbn. lia.
Defined.

(** ** The Pyrazinamide check as a function of the dose *)

Lemma SFcompare_int_gt_mono (sf : spec_float) (m n : Z) :
  m <= n ->
  Py.SFcompare_int sf n = Some Gt -> Py.SFcompare_int sf m = Some Gt.
Proof.
  intros Hmn. rewrite Zle_Qle in Hmn.
  assert (Hq : forall q : Q,
             Some (q ?= inject_Z n)%Q = Some Gt ->
             Some (q ?= inject_Z m)%Q = Some Gt).
  { intros q H. injection H as H. rewrite <- Qgt_alt in H.
    f_equal. rewrite <- Qgt_alt. eapply Qle_lt_trans; eassumption. }
  destruct sf as [s | s | | s p e]; cbn [Py.SFcompare_int]; auto.
Qed.

Lemma float_gt_int_mono (x : float) (m n : Z) :
  m <= n -> Py.float_gt_int x n = true -> Py.float_gt_int x m = true.
Proof.
  unfold Py.float_gt_int, Py.compare_float_int. intros Hmn.
  destruct (Py.SFcompare_int (Prim2SF x) n) as [[ | | ] | ] eqn:Hn;
    try discriminate.
  rewrite (SFcompare_int_gt_mono _ _ _ Hmn Hn). reflexivity.
Qed.

(** X10: for a weight of at least 1 kg the verdict of the Pyrazinamide
    check is monotone in the dose: below a dose that is flagged low
    every dose is flagged low, above a dose that is flagged high every
    dose is flagged high, so the doses that pass form an interval. *)
Theorem pyrazinamide_monotone (data : patient_data) (z_dose z_dose' : Z) :
  (1 <=? weight_of data)%float = true ->
  z_dose <= z_dose' ->
  (run (pyrazinamide_check (set_dose_Z (Some z_dose') data))
   = ([pyrazinamide_low (z_target_of (weight_of data)) z_dose'], Ok tt) ->
   run (pyrazinamide_check (set_dose_Z (Some z_dose) data))
   = ([pyrazinamide_low (z_target_of (weight_of data)) z_dose], Ok tt)) /\
  (run (pyrazinamide_check (set_dose_Z (Some z_dose) data))
   = ([pyrazinamide_high], Ok tt) ->
   run (pyrazinamide_check (set_dose_Z (Some z_dose') data))
   = ([pyrazinamide_high], Ok tt)).
Proof.
  intros Hw Hle.
  pose proof (bands_exclusive (weight_of data) z_dose' Hw) as Hex.
  unfold run, pyrazinamide_check, weight_of.
  cbn [set_dose_Z weight dose_Z get]. fold (weight_of data).
  unfold Py.int_lt_float, Py.int_gt_float in *.
  set (lo := (z_target_of (weight_of data) * 0.8)%float) in *.
  set (hi := (z_target_of (weight_of data) * 1.2)%float) in *.
  pose proof (float_gt_int_mono lo z_dose z_dose' Hle) as Hlo.
  pose proof (float_lt_int_mono hi z_dose z_dose' Hle) as Hhi.
  split.
  - destruct (Py.float_gt_int lo z_dose') eqn:H'.
    + rewrite (Hlo eq_refl). reflexivity.
    + destruct (Py.float_lt_int hi z_dose'); discriminate.
  - destruct (Py.float_gt_int lo z_dose) eqn:H; [discriminate | ].
    destruct (Py.float_lt_int hi z_dose) eqn:H1; [ | discriminate].
    intros _. rewrite (Hhi eq_refl) in *.
    destruct (Py.float_gt_int lo z_dose'); [ | reflexivity].
    discriminate (Hex eq_refl).
Qed.

Lemma pyrazinamide_monotone_witness :
  (run (pyrazinamide_check
          (set_dose_Z (Some 1900) (pyrazinamide_example 60 1500)))
   = ([pyrazinamide_low (z_target_of (weight_of (pyrazinamide_example 60 1500)))
         1900], Ok tt) ->
   run (pyrazinamide_check
          (set_dose_Z (Some 1100) (pyrazinamide_example 60 1500)))
   = ([pyrazinamide_low (z_target_of (weight_of (pyrazinamide_example 60 1500)))
         1100], Ok tt)) /\
  (run (pyrazinamide_check
          (set_dose_Z (Some 1100) (pyrazinamide_example 60 1500)))
   = ([pyrazinamide_high], Ok tt) ->
   run (pyrazinamide_check
          (set_dose_Z (Some 1900) (pyrazinamide_example 60 1500)))
   = ([pyrazinamide_high], Ok tt)).
Proof.
  apply (pyrazinamide_monotone (pyrazinamide_example 60 1500) 1100 1900).
  - vm_compute. reflexivity.
  - lia.
Defined.

(** ** The default Pyrazinamide dose *)

Lemma Prim2SF_49 : Prim2SF 49 = S754_finite false 6896136929411072 (-47).
Proof. vm_compute. reflexivity. Qed.

Lemma Prim2SF_76 : Prim2SF 76 = S754_finite false 5348024557502464 (-46).
Proof. vm_compute. reflexivity. Qed.

(** What [x <= c] says of a positive finite [x]. *)
Lemma leb_upper_val (c x : float) (mc : positive) (ec : Z)
    (m : positive) (e : Z) :
  Prim2SF c = S754_finite false mc ec ->
  Prim2SF x = S754_finite false m e ->
  (x <=? c)%float = true ->
  (val (Zpos m) e <= val (Zpos mc) ec)%Q.
Proof.
  intros Hc Hx Hle. rewrite leb_spec, Hc, Hx in Hle.
  pose proof (Prim2SF_valid c) as Hvc. rewrite Hc in Hvc.
  pose proof (Prim2SF_valid x) as Hvx. rewrite Hx in Hvx.
  apply SFleb_val; assumption.
Qed.

(** The upper bound of a weight of at most 49 kg is below 1500. *)
Lemma upper_band_below_1500 (w : float) :
  (1 <=? w)%float = true -> (w <=? 49)%float = true ->
  Py.int_gt_float 1500 (z_target_of w * 1.2)%float = true.
Proof.
  intros Hlo Hhi.
  pose proof (Prim2SF_valid (z_target_of w)) as Hvalid.
  assert (Ht : exists m e,
             Prim2SF (z_target_of w) = S754_finite false m e /\
             (val (Zpos m) e <= 1232)%Q).
  { destruct (leb_lower_bound _ _ _ _ Prim2SF_1 Hlo)
      as [Hinf | (m & e & Hw & Hb & _)].
    - exfalso. exact (leb_upper_bound _ _ _ _ Prim2SF_49 Hhi Hinf).
    - pose proof (leb_upper_val _ _ _ _ _ _ Prim2SF_49 Hw Hhi) as Hv.
      assert (H49 : (val 6896136929411072 (-47) == 49)%Q)
        by (vm_compute; reflexivity).
      rewrite H49 in Hv.
      assert (H52 : 2 ^ 52 <= Zpos m * 7036874417766400) by lia.
      pose proof (mul_lt w 25 _ _ _ _ Hw Prim2SF_25 H52
                    5418393301680128%positive (-42) eq_refl) as Hlt.
      assert (H25 : (val 7036874417766400 (-48) == 25)%Q)
        by (vm_compute; reflexivity).
      assert (H1232 : (val 5418393301680128 (-42) == 1232)%Q)
        by (vm_compute; reflexivity).
      rewrite H25, H1232 in Hlt.
      pose proof (val_pos (Zpos m) e ltac:(lia)) as Hpos.
      destruct (z_target_cases w Hlo) as [Hinf | (m' & e' & Ht & _ & _)];
        unfold z_target_of in *.
      + rewrite Hinf in Hlt. exfalso. apply Hlt. lra.
      + rewrite Ht in Hlt. exists m', e'. split; [exact Ht | ].
        rewrite <- H1232. apply Hlt. lra. }
  destruct Ht as (m & e & Ht & Hv). rewrite Ht in Hvalid.
  assert (H52 : 2 ^ 52 <= Zpos m * 5404319552844595) by lia.
  pose proof (mul_lt _ 1.2 _ _ _ _ Ht Prim2SF_1_2 H52
                6509108836433920%positive (-42) eq_refl) as Hlt.
  assert (H12 : (val 5404319552844595 (-52) <= 6 # 5)%Q)
    by (vm_compute; discriminate).
  assert (H1480 : (val 6509108836433920 (-42) == 1480)%Q)
    by (vm_compute; reflexivity).
  pose proof (val_pos (Zpos m) e ltac:(lia)) as Hpos.
  pose proof (val_pos 5404319552844595 (-52) ltac:(lia)) as Hpos12.
  assert (Hprod : (val (Zpos m) e * val 5404319552844595 (-52)
                   < val 6509108836433920 (-42))%Q)
    by (rewrite H1480; nra).
  specialize (Hlt Hprod).
  unfold Py.int_gt_float, Py.float_lt_int, Py.compare_float_int.
  destruct (Prim2SF (z_target_of w * 1.2)) as [s | s | | s m2 e2];
    try destruct s; try contradiction.
  - reflexivity.
  - cbn [Py.SFcompare_int].
    change (Py.SF2Q (S754_finite false m2 e2)) with (val (Zpos m2) e2).
    assert (Hc : (val (Zpos m2) e2 ?= inject_Z 1500)%Q = Lt).
    { apply Qlt_alt. rewrite H1480 in Hlt.
      apply Qle_lt_trans with 1480%Q; [exact Hlt | reflexivity]. }
    rewrite Hc. reflexivity.
Qed.

(** The lower bound of a weight of at least 76 kg is above 1500. *)
Lemma lower_band_above_1500 (w : float) :
  (76 <=? w)%float = true ->
  Py.int_lt_float 1500 (z_target_of w * 0.8)%float = true.
Proof.
  intros Hlo.
  pose proof (Prim2SF_valid (z_target_of w)) as Hvalid.
  unfold Py.int_lt_float, Py.float_gt_int, Py.compare_float_int.
  assert (Ht : Prim2SF (z_target_of w) = S754_infinity false \/
               exists m e,
                 Prim2SF (z_target_of w) = S754_finite false m e /\
                 (1900 <= val (Zpos m) e)%Q).
  { unfold z_target_of.
    destruct (leb_lower_bound _ _ _ _ Prim2SF_76 Hlo)
      as [Hinf | (m & e & Hw & Hb & Hv)].
    - left. rewrite mul_spec, Prim2SF_25, Hinf. reflexivity.
    - assert (H76 : (val 5348024557502464 (-46) == 76)%Q)
        by (vm_compute; reflexivity).
      rewrite H76 in Hv.
      assert (H52 : 2 ^ 52 <= Zpos m * 7036874417766400) by lia.
      pose proof (mul_ge w 25 _ _ _ _ Hw Prim2SF_25 H52
                    8356288371097600%positive (-42) eq_refl) as Hge.
      assert (H25 : (val 7036874417766400 (-48) == 25)%Q)
        by (vm_compute; reflexivity).
      assert (H1900 : (val 8356288371097600 (-42) == 1900)%Q)
        by (vm_compute; reflexivity).
      rewrite H25, H1900 in Hge.
      destruct (Prim2SF (w * 25)) as [s | s | | s m' e'];
        try destruct s; try (exfalso; apply Hge; lra).
      + left. reflexivity.
      + right. exists m', e'. split; [reflexivity | ].
        rewrite <- H1900. apply Hge. lra. }
  destruct Ht as [Hinf | (m & e & Ht & Hv)].
  - rewrite mul_spec, Hinf, Prim2SF_0_8. reflexivity.
  - rewrite Ht in Hvalid.
    assert (H52 : 2 ^ 52 <= Zpos m * 7205759403792794) by lia.
    pose proof (mul_ge _ 0.8 _ _ _ _ Ht Prim2SF_0_8 H52
                  6614661952700416%positive (-42) eq_refl) as Hge.
    assert (H08 : (4 # 5 <= val 7205759403792794 (-53))%Q)
      by (vm_compute; discriminate).
    assert (H1504 : (val 6614661952700416 (-42) == 1504)%Q)
      by (vm_compute; reflexivity).
    assert (Hprod : (val 6614661952700416 (-42)
                     <= val (Zpos m) e * val 7205759403792794 (-53))%Q)
      by (rewrite H1504; nra).
    specialize (Hge Hprod).
    destruct (Prim2SF (z_target_of w * 0.8)) as [s | s | | s m2 e2];
      try destruct s; try contradiction.
    + reflexivity.
    + cbn [Py.SFcompare_int].
      change (Py.SF2Q (S754_finite false m2 e2)) with (val (Zpos m2) e2).
      assert (Hc : (val (Zpos m2) e2 ?= inject_Z 1500)%Q = Gt).
      { apply Qgt_alt. rewrite H1504 in Hge.
        apply Qlt_le_trans with 1504%Q; [reflexivity | exact Hge]. }
      rewrite Hc. reflexivity.
Qed.

(** X11: unlike the default Rifampicin dose, the default Pyrazinamide
    dose of page 3 (1500 mg) does not follow the weight: stored
    unchanged, it gets the high warning for every weight from 1 to 49 kg
    and the low warning for every weight of 76 kg or more. *)
Theorem default_dose_Z_flagged (d : patient_data) :
  ((1 <=? weight_of d)%float = true -> (weight_of d <=? 49)%float = true ->
   run (pyrazinamide_check (prescribed_regimen_store (regimen_defaults d) d))
   = ([pyrazinamide_high], Ok tt)) /\
  ((76 <=? weight_of d)%float = true ->
   run (pyrazinamide_check (prescribed_regimen_store (regimen_defaults d) d))
   = ([pyrazinamide_low (z_target_of (weight_of d)) 1500], Ok tt)).
Proof.
  unfold run, pyrazinamide_check, weight_of.
  cbn [prescribed_regimen_store regimen_defaults weight dose_Z w_dose_Z get].
  fold (weight_of d). split.
  - intros Hlo Hhi.
    pose proof (bands_exclusive (weight_of d) 1500 Hlo) as Hex.
    rewrite (upper_band_below_1500 _ Hlo Hhi) in *.
    destruct (Py.int_lt_float 1500 (z_target_of (weight_of d) * 0.8));
      [discriminate (Hex eq_refl) | reflexivity].
  - intros Hlo. rewrite (lower_band_above_1500 _ Hlo). reflexivity.
Qed.

(** ** The eGFR of a patient within the ranges of page 1 *)

Lemma SF_pos_finite_inv (x : spec_float) :
  SF_pos_finite x = true -> exists m e, x = S754_finite false m e.
Proof.
  destruct x as [s | s | | [ | ] m e]; try discriminate.
  intros _. exists m, e. reflexivity.
Qed.

(** Rounding a non-negative mantissa gives no NaN and keeps the sign. *)
Lemma binary_round_aux_nonneg (n E : Z) (l : location) :
  0 <= n -> SF_nonneg (binary_round_aux prec emax false n E l) = true.
Proof.
  intros Hn. unfold binary_round_aux.
  destruct (shr_fexp_spec n E l Hn) as [Hm1 _].
  destruct (shr_fexp prec emax n E l) as [mrs e1]. cbn [fst] in Hm1.
  set (m1 := round_nearest_even (shr_m mrs) (loc_of_shr_record mrs)).
  assert (Hm1' : 0 <= m1).
  { pose proof (round_nearest_even_bounds (shr_m mrs) (loc_of_shr_record mrs)).
    assert (0 <= shr_m mrs)
      by (rewrite Hm1; apply Z.div_pos; [lia | apply Z.pow_pos_nonneg; lia]).
    fold m1 in H. lia. }
  destruct (shr_fexp_spec m1 e1 loc_Exact Hm1') as [Hm2 _].
  destruct (shr_fexp prec emax m1 e1 loc_Exact) as [mrs2 e2].
  cbn [fst] in Hm2.
  assert (H2 : 0 <= shr_m mrs2)
    by (rewrite Hm2; apply Z.div_pos; [lia | apply Z.pow_pos_nonneg; lia]).
  destruct (shr_m mrs2) as [ | p | p]; [reflexivity | | lia].
  destruct (e2 <=? emax - prec); reflexivity.
Qed.

Lemma SFmul_nonneg_l (mx : positive) (ex : Z) (y : spec_float) :
  SF_nonneg y = true ->
  SF_nonneg (SF64mul (S754_finite false mx ex) y) = true.
Proof.
  destruct y as [s | s | | s my ey]; try destruct s; try discriminate;
    intros _; try reflexivity.
  apply binary_round_aux_nonneg. lia.
Qed.

Lemma SFmul_nonneg_r (x : spec_float) (my : positive) (ey : Z) :
  SF_nonneg x = true ->
  SF_nonneg (SF64mul x (S754_finite false my ey)) = true.
Proof.
  destruct x as [s | s | | s mx ex]; try destruct s; try discriminate;
    intros _; try reflexivity.
  apply binary_round_aux_nonneg. lia.
Qed.

Lemma SFdiv_core_nonneg (mx : positive) (ex : Z) (my : positive) (ey : Z) :
  0 <= fst (fst (SFdiv_core_binary prec emax (Zpos mx) ex (Zpos my) ey)).
Proof.
  unfold SFdiv_core_binary.
  set (s := _ - _ - _).
  set (m' := match s with
             | 0 => Zpos mx
             | Zpos _ => Z.shiftl (Zpos mx) s
             | Zneg _ => 0
             end).
  assert (Hm' : 0 <= m').
  { unfold m'. destruct s; try lia. apply Z.shiftl_nonneg. lia. }
  destruct (Z.div_eucl m' (Zpos my)) as [q r] eqn:Hd. cbn [fst].
  assert (Hq : q = m' / Zpos my) by (unfold Z.div; rewrite Hd; reflexivity).
  rewrite Hq. apply Z.div_pos; lia.
Qed.

Lemma SFdiv_nonneg (x : spec_float) (my : positive) (ey : Z) :
  SF_nonneg x = true ->
  SF_nonneg (SF64div x (S754_finite false my ey)) = true.
Proof.
  destruct x as [s | s | | s mx ex]; try destruct s; try discriminate;
    intros _; try reflexivity.
  unfold SF64div, SFdiv.
  pose proof (SFdiv_core_nonneg mx ex my ey) as Hq.
  destruct (SFdiv_core_binary prec emax (Zpos mx) ex (Zpos my) ey)
    as [[mz ez] lz].
  cbn [fst] in Hq. apply binary_round_aux_nonneg. exact Hq.
Qed.

(** [float(140 - age)] is a positive finite number. *)
Lemma Z2float_small (k : nat) :
  (1 <= k <= 140)%nat ->
  SF_pos_finite (Prim2SF (Py.Z2float (Z.of_nat k))) = true.
Proof.
  intros Hk. destruct k as [ | k]; [lia | ].
  do 140 (destruct k as [ | k]; [vm_compute; reflexivity | ]).
  lia.
Qed.

Lemma Prim2SF_20 : Prim2SF 20 = S754_finite false 5629499534213120 (-48).
Proof. vm_compute. reflexivity. Qed.

Lemma Prim2SF_0_85 : Prim2SF 0.85 = S754_finite false 7656119366529843 (-53).
Proof. vm_compute. reflexivity. Qed.

(** The divisor [72 * creat] is a positive finite number for a
    creatinine of the widget's range. *)
Lemma divisor_finite (creat : float) :
  (0.1 <=? creat)%float = true -> (creat <=? 20)%float = true ->
  SF_pos_finite (Prim2SF (72 * creat)) = true.
Proof.
  intros Hlo Hhi.
  destruct (leb_lower_bound _ _ _ _ Prim2SF_0_1 Hlo)
    as [Hinf | (m & e & Hc & Hb & Hv)].
  - exfalso. exact (leb_upper_bound _ _ _ _ Prim2SF_20 Hhi Hinf).
  - pose proof (leb_upper_val _ _ _ _ _ _ Prim2SF_20 Hc Hhi) as Hv20.
    assert (H52 : 2 ^ 52 <= 5066549580791808 * Zpos m) by lia.
    pose proof (mul_ge 72 creat _ _ _ _ Prim2SF_72 Hc H52
                  (2 ^ 52)%positive (-50) eq_refl) as Hge.
    pose proof (mul_lt 72 creat _ _ _ _ Prim2SF_72 Hc H52
                  (2 ^ 52)%positive (-41) eq_refl) as Hlt.
    assert (H72 : (val 5066549580791808 (-46) == 72)%Q)
      by (vm_compute; reflexivity).
    assert (H01 : (1 # 16 <= val 7205759403792794 (-56))%Q)
      by (vm_compute; discriminate).
    assert (H20 : (val 5629499534213120 (-48) == 20)%Q)
      by (vm_compute; reflexivity).
    assert (H4 : (val (Zpos (2 ^ 52)) (-50) == 4)%Q)
      by (vm_compute; reflexivity).
    assert (H2048 : (val (Zpos (2 ^ 52)) (-41) == 2048)%Q)
      by (vm_compute; reflexivity).
    rewrite H20 in Hv20.
    assert (Hge' : (val (Zpos (2 ^ 52)) (-50)
                    <= val 5066549580791808 (-46) * val (Zpos m) e)%Q)
      by (rewrite H72, H4; lra).
    assert (Hlt' : (val 5066549580791808 (-46) * val (Zpos m) e
                    < val (Zpos (2 ^ 52)) (-41))%Q)
      by (rewrite H72, H2048; lra).
    specialize (Hge Hge'). specialize (Hlt Hlt').
    destruct (Prim2SF (72 * creat)) as [s | s | | s m' e'];
      try destruct s; try contradiction.
    reflexivity.
Qed.

(** The estimate of a patient within the ranges is neither a NaN nor
    negative. *)
Lemma egfr_of_nonneg (age : Z) (wt : float) (sex : string) (creat : float) :
  0 <= age <= 120 ->
  (1 <=? wt)%float = true ->
  (0.1 <=? creat)%float = true -> (creat <=? 20)%float = true ->
  exists x,
    egfr_of age wt sex creat = Ok x /\ SF_nonneg (Prim2SF x) = true.
Proof.
  intros Hage Hwt Hlo Hhi. unfold egfr_of, Py.float_div.
  rewrite (float_of_int_140_minus_age age Hage).
  rewrite (divisor_nonzero creat Hlo).
  eexists. split; [reflexivity | ].
  destruct (SF_pos_finite_inv _ (divisor_finite creat Hlo Hhi))
    as (md & ed & Hd).
  assert (Ha : SF_pos_finite (Prim2SF (Py.Z2float (140 - age))) = true).
  { replace (140 - age) with (Z.of_nat (Z.to_nat (140 - age))) by lia.
    apply Z2float_small. lia. }
  destruct (SF_pos_finite_inv _ Ha) as (ma & ea & Ha').
  assert (Hw : SF_nonneg (Prim2SF wt) = true).
  { destruct (leb_lower_bound _ _ _ _ Prim2SF_1 Hwt)
      as [-> | (m & e & -> & _)]; reflexivity. }
  assert (Hs : exists ms es, Prim2SF (sex_factor sex) = S754_finite false ms es).
  { unfold sex_factor. destruct (String.eqb sex "Female").
    - rewrite Prim2SF_0_85. do 2 eexists. reflexivity.
    - rewrite Prim2SF_1. do 2 eexists. reflexivity. }
  destruct Hs as (ms & es & Hs).
  rewrite div_spec, Hd. apply SFdiv_nonneg.
  rewrite mul_spec, Hs. apply SFmul_nonneg_r.
  rewrite mul_spec, Ha'. apply SFmul_nonneg_l. exact Hw.
Qed.

(** X12: for a patient within the ranges of page 1 (age 0-120, weight
    at least 1 kg, creatinine 0.1-20) the eGFR estimate is computed
    without error and is a number, not a NaN, and not negative; so the
    renal classification is decided by the value alone: adjustment is
    needed exactly when the estimate is below 60, and not needed exactly
    when it is at least 60. *)
Theorem egfr_in_range_classified
    (age : Z) (wt : float) (sex : string) (creat : float) :
  0 <= age <= 120 ->
  (1 <=? wt)%float = true ->
  (0.1 <=? creat)%float = true -> (creat <=? 20)%float = true ->
  exists x,
    egfr_of age wt sex creat = Ok x /\
    (forall n, Py.compare_float_int x n <> None) /\
    Py.float_lt_int x 0 = false /\
    (fst (check_renal_adjustment x) = true <-> Py.float_lt_int x 60 = true) /\
    (fst (check_renal_adjustment x) = false <-> Py.float_ge_int x 60 = true).
Proof.
  intros Hage Hwt Hlo Hhi.
  destruct (egfr_of_nonneg age wt sex creat Hage Hwt Hlo Hhi)
    as (x & Hx & Hnn).
  exists x. split; [exact Hx | ].
  assert (Hnum : forall n, Py.compare_float_int x n <> None).
  { intros n. unfold Py.compare_float_int.
    destruct (Prim2SF x) as [s | s | | s m e]; discriminate. }
  split; [exact Hnum | ]. split.
  - unfold Py.float_lt_int, Py.compare_float_int.
    destruct (Prim2SF x) as [s | s | | s m e]; try destruct s;
      try discriminate Hnn; try reflexivity.
    cbn [Py.SFcompare_int].
    change (Py.SF2Q (S754_finite false m e)) with (val (Zpos m) e).
    assert (Hc : (val (Zpos m) e ?= inject_Z 0)%Q = Gt)
      by (apply Qgt_alt; apply (val_pos (Zpos m) e); lia).
    rewrite Hc. reflexivity.
  - pose proof (float_lt_int_mono x 30 60 ltac:(lia)) as Hmono.
    assert (Hge : Py.float_ge_int x 60 = negb (Py.float_lt_int x 60)).
    { specialize (Hnum 60). unfold Py.float_ge_int, Py.float_lt_int.
      destruct (Py.compare_float_int x 60) as [[ | | ] | ];
        try reflexivity. contradiction. }
    rewrite Hge. unfold check_renal_adjustment.
    destruct (Py.float_lt_int x 30).
    + rewrite (Hmono eq_refl). cbn.
      split; split; intros H; try reflexivity; discriminate H.
    + destruct (Py.float_lt_int x 60); cbn;
        split; split; intros H; try reflexivity; discriminate H.
Qed.

Lemma egfr_in_range_classified_witness :
  exists x,
    egfr_of 25 60 "Male" 0.9 = Ok x /\
    (forall n, Py.compare_float_int x n <> None) /\
    Py.float_lt_int x 0 = false /\
    (fst (check_renal_adjustment x) = true <-> Py.float_lt_int x 60 = true) /\
    (fst (check_renal_adjustment x) = false <-> Py.float_ge_int x 60 = true).
Proof.
  apply (egfr_in_range_classified 25 60 "Male" 0.9);
    [lia | vm_compute; reflexivity ..].
Defined.
